(** * HttpServerManager: the address-keyed registry of HTTP/HTTPS listeners

    A shallow embedding of
    [src/projects/modules/http/server/http_server_manager.cpp]
    (namespace [http::svr]).

    The manager owns a [std::map] from socket address to
    [std::shared_ptr<HttpServer>].  Shared pointers are modelled by handles
    into a store of server objects, so that two requests answered with the
    same pointer are answered with the same handle.  Everything the manager
    delegates to (listener start and stop, certificate attachment, address
    resolution, the module configuration) is a field of an [Environment];
    each delegated call is recorded in a trace of events, next to the log
    lines the manager writes. *)

From stdpp Require Import gmap strings list.

Open Scope Z_scope.

(** ** Data model *)

(** [ov::SocketAddress]: a comparable key made of a host and a port. *)
Record SocketAddress : Type := mkSocketAddress {
  sa_host : string;
  sa_port : Z
}.

#[global] Instance SocketAddress_eq_dec : EqDecision SocketAddress.
Proof. solve_decision. Defined.

#[global] Instance SocketAddress_countable : Countable SocketAddress.
Proof.
  refine (inj_countable' (λ a, (sa_host a, sa_port a))
                         (λ p, mkSocketAddress p.1 p.2) _).
  by intros [].
Defined.

(** [info::Certificate] is opaque to the manager. *)
Definition Certificate : Type := string.

(** A non-null [std::shared_ptr]; the null pointer is [None] in
    [option Handle]. *)
Definition Handle : Type := nat.

(** The dynamic type of a server object, as seen by
    [std::dynamic_pointer_cast<HttpsServer>]. *)
Inductive ServerType : Type :=
| Http
| Https.

#[global] Instance ServerType_eq_dec : EqDecision ServerType.
Proof. solve_decision. Defined.

(** The state of a server object that the manager reads:
    [GetPhysicalPort()] (null, or a port with its [GetWorkerCount()]),
    [IsHttp2Enabled()], and the installed certificates. *)
Record ServerObject : Type := mkServerObject {
  server_type : ServerType;
  instance_name : string;
  physical_port : option Z;
  IsHttp2Enabled : bool;
  certificates : list Certificate
}.

Inductive LogLevel : Type :=
| LogDebug
| LogWarning
| LogError.

(** One constructor per log line of the source. *)
Inductive LogMessage : Type :=
| CannotReusePreviousIsHttps (address : SocketAddress)
| WorkerCountDiffers (existing argument : Z)
| FirstInitializedCountUsed (existing : Z)
| CannotReusePreviousIsHttp (address : SocketAddress)
| Http2PortUsedAsHttp11 (address : SocketAddress)
| Http11PortUsedAsHttp2 (address : SocketAddress)
| CouldNotFindHttpsServer (address : SocketAddress)
| CouldNotSetCertificateTo (address : SocketAddress)
| CouldNotSetCertificate
| CouldNotListen (http_server_name : string) (server_ip : string)
| AttemptingToCreate (http_server_name : string) (address : SocketAddress)
| CouldNotInitialize (address : SocketAddress)
| GetHttpsServerPreviousIsHttp (address : SocketAddress).

(** What the manager does to the outside world. *)
Inductive Event : Type :=
| EvStart (server : Handle) (address : SocketAddress)
          (worker_count : Z) (http2 : bool) (ok : bool)
| EvStop (server : Handle) (ok : bool)
| EvAppendCertificate (server : Handle) (certificate : Certificate) (ok : bool)
| EvRemoveCertificate (server : Handle) (certificate : Certificate) (ok : bool)
| EvCallback (address : SocketAddress) (server : Handle)
| EvLog (level : LogLevel) (message : LogMessage).

(** The singleton's state: [_http_servers], the store the shared pointers
    point into, and the trace of events so far (oldest first). *)
Record HttpServerManager : Type := mkManager {
  _http_servers : gmap SocketAddress Handle;
  objects : list ServerObject;
  trace : list Event
}.

(** The collaborators.  Outcomes of delegated calls may depend on
    everything that happened before, so they read the trace. *)
Record Environment : Type := mkEnvironment {
  (** [module_config.GetHttp2().IsEnabled()] *)
  http2_config : bool;
  (** the sentinel of [http_server_manager.h] *)
  HTTP_SERVER_USE_DEFAULT_COUNT : Z;
  (** the worker count a listener picks when given the sentinel *)
  default_worker_count : Z;
  (** [ov::SocketAddress::Create]; [None] when it throws [ov::Error] *)
  SocketAddress_Create : string → Z → option (list SocketAddress);
  start_result : list Event → ServerType → SocketAddress → Z → bool → bool;
  stop_result : list Event → Handle → bool;
  append_certificate_result : list Event → Handle → Certificate → bool;
  remove_certificate_result : list Event → Handle → Certificate → bool
}.

(** ** A state monad with failure

    [None] stands for dereferencing a handle that owns no object; a
    [std::shared_ptr] keeps its target alive, so the source never does
    it, and [wf] below shows the model never does either. *)
Definition M (A : Type) : Type :=
  HttpServerManager → option (A * HttpServerManager).

Definition ret {A : Type} (a : A) : M A := λ m, Some (a, m).

Definition bind {A B : Type} (c : M A) (k : A → M B) : M B :=
  λ m, match c m with
       | Some (a, m') => k a m'
       | None => None
       end.

Notation "'let*' x ':=' c 'in' k" := (bind c (λ x, k))
  (at level 10, x name, c at level 100, k at level 200, only parsing).
Notation "c ';;;' k" := (bind c (λ _, k))
  (at level 100, k at level 200, right associativity, only parsing).

Definition emit (e : Event) : M unit :=
  λ m, Some (tt, mkManager (_http_servers m) (objects m) (trace m ++ [e])).

Definition logtd (msg : LogMessage) : M unit := emit (EvLog LogDebug msg).
Definition logtw (msg : LogMessage) : M unit := emit (EvLog LogWarning msg).
Definition logte (msg : LogMessage) : M unit := emit (EvLog LogError msg).

(** [_http_servers.find(address)] *)
Definition find (address : SocketAddress) : M (option Handle) :=
  λ m, Some (_http_servers m !! address, m).

(** [_http_servers[address] = server] *)
Definition assign (address : SocketAddress) (server : Handle) : M unit :=
  λ m, Some (tt, mkManager (<[address := server]> (_http_servers m))
                           (objects m) (trace m)).

(** [*server] *)
Definition deref (server : Handle) : M ServerObject :=
  λ m, match objects m !! server with
       | Some o => Some (o, m)
       | None => None
       end.

(** [std::make_shared<T>(instance_name)]: a fresh object, not yet bound
    to a port. *)
Definition fresh (ty : ServerType) (name : string) : ServerObject :=
  mkServerObject ty name None false [].

Definition make_shared (ty : ServerType) (name : string) : M Handle :=
  λ m, Some (length (objects m),
             mkManager (_http_servers m) (objects m ++ [fresh ty name])
                       (trace m)).

Definition store (server : Handle) (o : ServerObject) : M unit :=
  λ m, Some (tt, mkManager (_http_servers m) (<[server := o]> (objects m))
                           (trace m)).

Section Manager.

Variable env : Environment.

(** ** The listener's own operations *)

(** Modelled from the spec: [HttpServer::Start] is declared outside this
    file.  Its outcome is the environment's; on success the listener is
    bound to a port with the requested worker count (the default one for
    the sentinel) and keeps the protocol-upgrade flag it was started
    with. *)
Definition started (o : ServerObject) (worker_count : Z) (http2 : bool)
    : ServerObject :=
  mkServerObject (server_type o) (instance_name o)
    (Some (if worker_count =? HTTP_SERVER_USE_DEFAULT_COUNT env
           then default_worker_count env else worker_count))
    http2 (certificates o).

Definition HttpServer_Start (server : Handle) (address : SocketAddress)
    (worker_count : Z) (http2 : bool) : M bool :=
  let* o := deref server in
  let* ok := (λ m, Some (start_result env (trace m) (server_type o)
                                      address worker_count http2, m)) in
  emit (EvStart server address worker_count http2 ok);;;
  if ok : bool then
    store server (started o worker_count http2);;;
    ret true
  else ret false.

(** Modelled from the spec: [HttpServer::Stop] is declared outside this
    file.  Its outcome is the environment's; on success the listener no
    longer holds a port. *)
Definition stopped (o : ServerObject) : ServerObject :=
  mkServerObject (server_type o) (instance_name o) None
    (IsHttp2Enabled o) (certificates o).

Definition HttpServer_Stop (server : Handle) : M bool :=
  let* o := deref server in
  let* ok := (λ m, Some (stop_result env (trace m) server, m)) in
  emit (EvStop server ok);;;
  if ok : bool then
    store server (stopped o);;;
    ret true
  else ret false.

(** Modelled from the spec: [HttpsServer::AppendCertificate] and
    [HttpsServer::RemoveCertificate] are declared outside this file.  The
    result is [true] when the returned error is null; only then does the
    credential set change. *)
Definition with_certificates (o : ServerObject) (cs : list Certificate)
    : ServerObject :=
  mkServerObject (server_type o) (instance_name o) (physical_port o)
    (IsHttp2Enabled o) cs.

Definition HttpsServer_AppendCertificate (server : Handle)
    (certificate : Certificate) : M bool :=
  let* o := deref server in
  let* ok := (λ m, Some (append_certificate_result env (trace m)
                                                   server certificate, m)) in
  emit (EvAppendCertificate server certificate ok);;;
  if ok : bool then
    store server (with_certificates o (certificates o ++ [certificate]));;;
    ret true
  else ret false.

Definition HttpsServer_RemoveCertificate (server : Handle)
    (certificate : Certificate) : M bool :=
  let* o := deref server in
  let* ok := (λ m, Some (remove_certificate_result env (trace m)
                                                   server certificate, m)) in
  emit (EvRemoveCertificate server certificate ok);;;
  if ok : bool then
    store server
      (with_certificates o (filter (λ c, c ≠ certificate) (certificates o)));;;
    ret true
  else ret false.

(** ** The manager *)

Definition CreateHttpServer (name : string) (address : SocketAddress)
    (worker_count : Z) : M (option Handle) :=
  let http2_enabled := http2_config env in
  let* item := find address in
  match item with
  | Some http_server =>
      let* o := deref http_server in
      match server_type o with
      | Https =>
          logte (CannotReusePreviousIsHttps address);;;
          ret None
      | Http =>
          (if negb (worker_count =? HTTP_SERVER_USE_DEFAULT_COUNT env) then
             match physical_port o with
             | Some port_worker_count =>
                 if negb (port_worker_count =? worker_count) then
                   logtw (WorkerCountDiffers port_worker_count worker_count);;;
                   logtw (FirstInitializedCountUsed port_worker_count)
                 else ret tt
             | None => ret tt
             end
           else ret tt);;;
          ret (Some http_server)
      end
  | None =>
      let* http_server := make_shared Http name in
      let* started :=
        HttpServer_Start http_server address worker_count http2_enabled in
      if started : bool then
        assign address http_server;;;
        ret (Some http_server)
      else ret None
  end.

Definition CreateHttpsServer (name : string) (address : SocketAddress)
    (disable_http2_force : bool) (worker_count : Z) : M (option Handle) :=
  let http2_enabled :=
    if disable_http2_force then false else http2_config env in
  let* item := find address in
  match item with
  | Some http_server =>
      let* o := deref http_server in
      match server_type o with
      | Http =>
          logte (CannotReusePreviousIsHttp address);;;
          ret None
      | Https =>
          (if IsHttp2Enabled o && negb http2_enabled then
             logtw (Http2PortUsedAsHttp11 address)
           else if negb (IsHttp2Enabled o) && http2_enabled then
             logtw (Http11PortUsedAsHttp2 address)
           else ret tt);;;
          ret (Some http_server)
      end
  | None =>
      let* https_server := make_shared Https name in
      let* started :=
        HttpServer_Start https_server address worker_count http2_enabled in
      if started : bool then
        assign address https_server;;;
        ret (Some https_server)
      else ret None
  end.

Definition GetHttpsServer (address : SocketAddress) : M (option Handle) :=
  let* item := find address in
  match item with
  | Some http_server =>
      let* o := deref http_server in
      match server_type o with
      | Https => ret (Some http_server)
      | Http =>
          logte (GetHttpsServerPreviousIsHttp address);;;
          ret None
      end
  | None => ret None
  end.

Definition AppendCertificate (address : SocketAddress)
    (certificate : Certificate) : M bool :=
  let* https_server := GetHttpsServer address in
  match https_server with
  | None =>
      logte (CouldNotFindHttpsServer address);;;
      ret false
  | Some s =>
      let* ok := HttpsServer_AppendCertificate s certificate in
      if ok : bool then ret true
      else logte (CouldNotSetCertificateTo address);;; ret false
  end.

Definition RemoveCertificate (address : SocketAddress)
    (certificate : Certificate) : M bool :=
  let* https_server := GetHttpsServer address in
  match https_server with
  | None =>
      logte (CouldNotFindHttpsServer address);;;
      ret false
  | Some s =>
      let* ok := HttpsServer_RemoveCertificate s certificate in
      if ok : bool then ret true
      else logte (CouldNotSetCertificateTo address);;; ret false
  end.

(** The overload of [CreateHttpsServer] that takes a certificate. *)
Definition CreateHttpsServer_certificate (name : string)
    (address : SocketAddress) (certificate : Certificate)
    (disable_http2_force : bool) (worker_count : Z) : M (option Handle) :=
  let* https_server :=
    CreateHttpsServer name address disable_http2_force worker_count in
  match https_server with
  | Some s =>
      let* ok := HttpsServer_AppendCertificate s certificate in
      if ok : bool then ret (Some s)
      else logte CouldNotSetCertificate;;; ret None
  | None => ret None
  end.

Definition ReleaseServer (http_server : option Handle) : M bool :=
  match http_server with
  | Some s => HttpServer_Stop s
  | None => ret false
  end.

(** Modelled from the spec: [ReleaseServers] is a template of
    [http_server_manager.h]; it releases every handle of the list, each
    through [ReleaseServer], in order.  Its only caller drops the
    result. *)
Fixpoint ReleaseServers (server_list : list Handle) : M unit :=
  match server_list with
  | [] => ret tt
  | s :: rest => ReleaseServer (Some s);;; ReleaseServers rest
  end.

(** ** Batch creation *)

Section CreateServers.

Variable http_server_name : string.
Variable port : Z.
Variable creation_function : SocketAddress → M (option Handle).
(** [creation_callback] is a hook of the caller; [true] when it is not
    null.  Its invocation is recorded; it does not call back into the
    manager. *)
Variable creation_callback : bool.

(** The inner [for] loop.  [None] is the [return false] taken after
    [ReleaseServers]; otherwise the grown [server_list]. *)
Fixpoint create_on_addresses (address_list : list SocketAddress)
    (server_list : list Handle) : M (option (list Handle)) :=
  match address_list with
  | [] => ret (Some server_list)
  | address :: rest =>
      logtd (AttemptingToCreate http_server_name address);;;
      let* server := creation_function address in
      match server with
      | Some s =>
          (if creation_callback then emit (EvCallback address s)
           else ret tt);;;
          create_on_addresses rest (server_list ++ [s])
      | None =>
          logte (CouldNotInitialize address);;;
          ReleaseServers server_list;;;
          ret None
      end
  end.

(** The outer [for] loop over [server_ip_list]. *)
Fixpoint create_on_ips (server_ip_list : list string)
    (server_list : list Handle) : M (option (list Handle)) :=
  match server_ip_list with
  | [] => ret (Some server_list)
  | server_ip :: rest =>
      match SocketAddress_Create env server_ip port with
      | None =>
          logte (CouldNotListen http_server_name server_ip);;;
          ret None
      | Some address_list =>
          let* r := create_on_addresses address_list server_list in
          match r with
          | Some server_list' => create_on_ips rest server_list'
          | None => ret None
          end
      end
  end.

(** The result pairs the returned [bool] with the contents of
    [*http_server_list] after the call. *)
Definition CreateServers (http_server_list : list Handle)
    (server_ip_list : list string) : M (bool * list Handle) :=
  let* r := create_on_ips server_ip_list [] in
  match r with
  | Some server_list => ret (true, http_server_list ++ server_list)
  | None => ret (false, http_server_list)
  end.

End CreateServers.

Definition CreateHttpServers (http_server_list : list Handle)
    (name : string) (server_ip_list : list string) (port : Z)
    (callback : bool) (worker_count : Z) : M (bool * list Handle) :=
  CreateServers "HTTP" port
    (λ address, CreateHttpServer name address worker_count)
    callback http_server_list server_ip_list.

Definition CreateHttpsServers (https_server_list : list Handle)
    (name : string) (server_ip_list : list string) (port : Z)
    (certificate : Certificate) (disable_http2_force : bool)
    (callback : bool) (worker_count : Z) : M (bool * list Handle) :=
  CreateServers "HTTPS" port
    (λ address, CreateHttpsServer_certificate name address certificate
                  disable_http2_force worker_count)
    callback https_server_list server_ip_list.

End Manager.

(** ** Observations

    What the statements below read off a manager state. *)

(** The handles [Start] was invoked on, oldest first. *)
Fixpoint starts (tr : list Event) : list Handle :=
  match tr with
  | [] => []
  | EvStart s _ _ _ _ :: rest => s :: starts rest
  | _ :: rest => starts rest
  end.

(** The handles [Stop] was invoked on, oldest first. *)
Fixpoint stops (tr : list Event) : list Handle :=
  match tr with
  | [] => []
  | EvStop s _ :: rest => s :: stops rest
  | _ :: rest => stops rest
  end.

Definition is_warning (e : Event) : bool :=
  match e with
  | EvLog LogWarning _ => true
  | _ => false
  end.

(** The warnings written to the log, oldest first. *)
Definition warnings (tr : list Event) : list Event := List.filter is_warning tr.

(** The two warnings [CreateHttpServer] writes when it reuses a listener
    whose port has another worker count than the explicit one asked
    for. *)
Definition worker_count_warnings (env : Environment) (o : ServerObject)
    (worker_count : Z) : list Event :=
  if negb (worker_count =? HTTP_SERVER_USE_DEFAULT_COUNT env) then
    match physical_port o with
    | Some w =>
        if negb (w =? worker_count) then
          [EvLog LogWarning (WorkerCountDiffers w worker_count);
           EvLog LogWarning (FirstInitializedCountUsed w)]
        else []
    | None => []
    end
  else [].

(** [GetWorkerCount()] of the port a handle is bound to. *)
Definition WorkerCount (m : HttpServerManager) (s : Handle) : option Z :=
  o ← objects m !! s; physical_port o.

(** Every pointer kept in [_http_servers] owns an object. *)
Definition wf (m : HttpServerManager) : Prop :=
  map_Forall (λ _ s, (s < length (objects m))%nat) (_http_servers m).

(** [address] is registered with handle [s]. *)
Definition registered (m : HttpServerManager) (address : SocketAddress)
    (s : Handle) : Prop :=
  _http_servers m !! address = Some s.

(** What batch creation relies on in its [creation_function]: on a
    well-formed manager it returns, keeps the manager well-formed, drops
    no entry of [_http_servers], stops nothing, and a handle it returns
    is the one registered at the address. *)
Definition good_creation (f : SocketAddress → M (option Handle)) : Prop :=
  ∀ address m,
    wf m →
    ∃ r m',
      f address m = Some (r, m') ∧
      wf m' ∧
      _http_servers m ⊆ _http_servers m' ∧
      stops (trace m') = stops (trace m) ∧
      ∀ s, r = Some s → registered m' address s.

(** All the addresses a list of bind hosts resolves to, in processing
    order; [None] when one of them does not resolve. *)
Fixpoint resolve_all (env : Environment) (server_ip_list : list string)
    (port : Z) : option (list SocketAddress) :=
  match server_ip_list with
  | [] => Some []
  | server_ip :: rest =>
      match SocketAddress_Create env server_ip port with
      | None => None
      | Some address_list =>
          match resolve_all env rest port with
          | None => None
          | Some l => Some (address_list ++ l)
          end
      end
  end.

(** ** Sample environments and states *)

Definition single_address (server_ip : string) (port : Z)
    : option (list SocketAddress) :=
  if String.eqb server_ip "unresolvable" then None
  else Some [mkSocketAddress server_ip port].

(** Every delegated call succeeds; HTTP/2 is enabled in the module
    configuration. *)
Definition env_ok : Environment :=
  mkEnvironment true (-1) 4 single_address
    (λ _ _ _ _ _, true) (λ _ _, true) (λ _ _ _, true) (λ _ _ _, true).

(** The port is busy at the first [Start] and free afterwards. *)
Definition env_busy_once : Environment :=
  mkEnvironment true (-1) 4 single_address
    (λ tr _ _ _ _, match starts tr with [] => false | _ => true end)
    (λ _ _, true) (λ _ _ _, true) (λ _ _ _, true).

(** Listeners start, certificates are refused. *)
Definition env_bad_certificate : Environment :=
  mkEnvironment true (-1) 4 single_address
    (λ _ _ _ _ _, true) (λ _ _, true) (λ _ _ _, false) (λ _ _ _, true).

(** Only [addr1] can be bound. *)
Definition env_one_port : Environment :=
  mkEnvironment true (-1) 4 single_address
    (λ _ _ address _ _, String.eqb (sa_host address) "10.0.0.1")
    (λ _ _, true) (λ _ _ _, true) (λ _ _ _, true).

Definition empty_manager : HttpServerManager := mkManager ∅ [] [].

Definition addr1 : SocketAddress := mkSocketAddress "10.0.0.1" 8080.
Definition addr2 : SocketAddress := mkSocketAddress "10.0.0.2" 8080.

(** One HTTPS listener on [addr1], started with 5 workers. *)
Definition https_manager : HttpServerManager :=
  mkManager {[ addr1 := 0%nat ]}
    [mkServerObject Https "tls" (Some 5) true []]
    [EvStart 0%nat addr1 5 true true].

(** One HTTP listener on [addr1], started with 5 workers. *)
Definition http_manager : HttpServerManager :=
  mkManager {[ addr1 := 0%nat ]}
    [mkServerObject Http "plain" (Some 5) true []]
    [EvStart 0%nat addr1 5 true true].

(** ** Further observations *)

(** The invocations of the caller's hook, oldest first. *)
Fixpoint callbacks (tr : list Event) : list (SocketAddress * Handle) :=
  match tr with
  | [] => []
  | EvCallback address s :: rest => (address, s) :: callbacks rest
  | _ :: rest => callbacks rest
  end.

(** The listeners a certificate operation was forwarded to, oldest
    first. *)
Fixpoint certificate_calls (tr : list Event) : list Handle :=
  match tr with
  | [] => []
  | EvAppendCertificate s _ _ :: rest => s :: certificate_calls rest
  | EvRemoveCertificate s _ _ :: rest => s :: certificate_calls rest
  | _ :: rest => certificate_calls rest
  end.

(** The addresses a [Start] succeeded on, oldest first. *)
Fixpoint bound (tr : list Event) : list SocketAddress :=
  match tr with
  | [] => []
  | EvStart _ address _ _ true :: rest => address :: bound rest
  | _ :: rest => bound rest
  end.

(** No address was bound twice, and the addresses bound are exactly the
    registered ones. *)
Definition single_bind (m : HttpServerManager) : Prop :=
  NoDup (bound (trace m)) ∧
  ∀ address, address ∈ bound (trace m) ↔ is_Some (_http_servers m !! address).

(** ** Clients

    A call of one of the public member functions, its result dropped. *)
Inductive Request : Type :=
| ReqCreateHttpServer (name : string) (address : SocketAddress)
    (worker_count : Z)
| ReqCreateHttpsServer (name : string) (address : SocketAddress)
    (disable_http2_force : bool) (worker_count : Z)
| ReqCreateHttpsServerCertificate (name : string) (address : SocketAddress)
    (certificate : Certificate) (disable_http2_force : bool)
    (worker_count : Z)
| ReqCreateHttpServers (http_server_list : list Handle) (name : string)
    (server_ip_list : list string) (port : Z) (callback : bool)
    (worker_count : Z)
| ReqCreateHttpsServers (https_server_list : list Handle) (name : string)
    (server_ip_list : list string) (port : Z) (certificate : Certificate)
    (disable_http2_force : bool) (callback : bool) (worker_count : Z)
| ReqAppendCertificate (address : SocketAddress) (certificate : Certificate)
| ReqRemoveCertificate (address : SocketAddress) (certificate : Certificate)
| ReqReleaseServer (http_server : option Handle)
| ReqGetHttpsServer (address : SocketAddress).

Definition perform (env : Environment) (q : Request) : M unit :=
  match q with
  | ReqCreateHttpServer name address worker_count =>
      CreateHttpServer env name address worker_count;;; ret tt
  | ReqCreateHttpsServer name address force worker_count =>
      CreateHttpsServer env name address force worker_count;;; ret tt
  | ReqCreateHttpsServerCertificate name address certificate force
      worker_count =>
      CreateHttpsServer_certificate env name address certificate force
        worker_count;;; ret tt
  | ReqCreateHttpServers l name ips port callback worker_count =>
      CreateHttpServers env l name ips port callback worker_count;;; ret tt
  | ReqCreateHttpsServers l name ips port certificate force callback
      worker_count =>
      CreateHttpsServers env l name ips port certificate force callback
        worker_count;;; ret tt
  | ReqAppendCertificate address certificate =>
      AppendCertificate env address certificate;;; ret tt
  | ReqRemoveCertificate address certificate =>
      RemoveCertificate env address certificate;;; ret tt
  | ReqReleaseServer http_server =>
      ReleaseServer env http_server;;; ret tt
  | ReqGetHttpsServer address =>
      GetHttpsServer address;;; ret tt
  end.

(** A client can only pass a pointer that is null or owns an object. *)
Definition admissible (q : Request) (m : HttpServerManager) : Prop :=
  match q with
  | ReqReleaseServer (Some s) => is_Some (objects m !! s)
  | _ => True
  end.

(** The states the singleton goes through, from its construction on. *)
Inductive reachable (env : Environment) : HttpServerManager → Prop :=
| reachable_init : reachable env empty_manager
| reachable_step q m m' :
    reachable env m →
    admissible q m →
    perform env q m = Some (tt, m') →
    reachable env m'.

(** What one creation on [address] may do to [_http_servers]: nothing,
    or fill the free slot of [address]. *)
Definition registers_at_most (address : SocketAddress)
    (m m' : HttpServerManager) : Prop :=
  _http_servers m' = _http_servers m ∨
  (_http_servers m !! address = None ∧
   ∃ s, _http_servers m' = <[address := s]> (_http_servers m)).

(** What one creation on [address] adds to the trace and to
    [_http_servers]: some events, none of them a hook invocation, and
    either no successful [Start] and no entry, or one successful
    [Start] on [address] and the entry of [address], free before. *)
Definition creation_step (address : SocketAddress)
    (m m' : HttpServerManager) : Prop :=
  ∃ evs,
    trace m' = trace m ++ evs ∧
    callbacks evs = [] ∧
    ((_http_servers m' = _http_servers m ∧ bound evs = []) ∨
     (_http_servers m !! address = None ∧
      ∃ s, _http_servers m' = <[address := s]> (_http_servers m) ∧
           bound evs = [address])).

(** ** Further sample states *)


(** [https_manager] after a batch that names "10.0.0.2" twice, under
    [env_ok], with a hook. *)
Definition shared_manager : HttpServerManager :=
  mkManager (<[ addr2 := 1%nat ]> {[ addr1 := 0%nat ]})
    [mkServerObject Https "tls" (Some 5) true [];
     mkServerObject Http "svc" (Some 5) true []]
    [EvStart 0%nat addr1 5 true true;
     EvLog LogDebug (AttemptingToCreate "HTTP" addr2);
     EvStart 1%nat addr2 5 true true;
     EvCallback addr2 1%nat;
     EvLog LogDebug (AttemptingToCreate "HTTP" addr2);
     EvCallback addr2 1%nat].

(** The attributes of a listener that no member function of the manager
    writes. *)
Definition same_listener (o o' : ServerObject) : Prop :=
  server_type o' = server_type o ∧
  instance_name o' = instance_name o ∧
  IsHttp2Enabled o' = IsHttp2Enabled o.

(** From [m] to [m'] no entry of [_http_servers] was removed or
    replaced, and every server object is still there, the same
    listener. *)
Definition keeps_listeners (m m' : HttpServerManager) : Prop :=
  _http_servers m ⊆ _http_servers m' ∧
  ∀ s o, objects m !! s = Some o →
         ∃ o', objects m' !! s = Some o' ∧ same_listener o o'.

(** * Properties *)

Section Properties.

Variable env : Environment.

Implicit Types (m : HttpServerManager) (address : SocketAddress).
Implicit Types (s : Handle) (o : ServerObject) (tr : list Event).

(** ** Traces *)

Lemma starts_app tr1 tr2 : starts (tr1 ++ tr2) = starts tr1 ++ starts tr2.
Proof.
  induction tr1 as [|e tr1 IH]; [done|].
  destruct e; simpl; by rewrite ?IH.
Qed.

Lemma stops_app tr1 tr2 : stops (tr1 ++ tr2) = stops tr1 ++ stops tr2.
Proof.
  induction tr1 as [|e tr1 IH]; [done|].
  destruct e; simpl; by rewrite ?IH.
Qed.

Lemma warnings_app tr1 tr2 :
  warnings (tr1 ++ tr2) = warnings tr1 ++ warnings tr2.
Proof. apply List.filter_app. Qed.

(** ** The store *)

Lemma lookup_fresh (objs : list ServerObject) o :
  (objs ++ [o]) !! length objs = Some o.
Proof. by apply list_lookup_middle. Qed.

Lemma insert_fresh (objs : list ServerObject) o o' :
  <[length objs := o']> (objs ++ [o]) = objs ++ [o'].
Proof.
  replace (length objs) with (length objs + 0)%nat at 1 by lia.
  by rewrite insert_app_r.
Qed.

(** ** The listener's operations, one equation each *)

Lemma HttpServer_Start_eq s address worker_count http2 m o :
  objects m !! s = Some o →
  HttpServer_Start env s address worker_count http2 m =
    let ok := start_result env (trace m) (server_type o) address
                worker_count http2 in
    Some (ok,
          mkManager (_http_servers m)
            (if ok then <[s := started env o worker_count http2]> (objects m)
             else objects m)
            (trace m ++ [EvStart s address worker_count http2 ok])).
Proof.
  intros Ho. unfold HttpServer_Start, bind, deref. rewrite Ho. simpl.
  by destruct (start_result _ _ _ _ _ _).
Qed.

Lemma HttpServer_Stop_eq s m o :
  objects m !! s = Some o →
  HttpServer_Stop env s m =
    let ok := stop_result env (trace m) s in
    Some (ok,
          mkManager (_http_servers m)
            (if ok then <[s := stopped o]> (objects m) else objects m)
            (trace m ++ [EvStop s ok])).
Proof.
  intros Ho. unfold HttpServer_Stop, bind, deref. rewrite Ho. simpl.
  by destruct (stop_result _ _ _).
Qed.

Lemma HttpsServer_AppendCertificate_eq s certificate m o :
  objects m !! s = Some o →
  HttpsServer_AppendCertificate env s certificate m =
    let ok := append_certificate_result env (trace m) s certificate in
    Some (ok,
          mkManager (_http_servers m)
            (if ok
             then <[s := with_certificates o (certificates o ++ [certificate])]>
                    (objects m)
             else objects m)
            (trace m ++ [EvAppendCertificate s certificate ok])).
Proof.
  intros Ho. unfold HttpsServer_AppendCertificate, bind, deref.
  rewrite Ho. simpl.
  by destruct (append_certificate_result _ _ _ _).
Qed.

(** ** Creation on a free address *)

Lemma CreateHttpServer_miss name address worker_count m :
  _http_servers m !! address = None →
  CreateHttpServer env name address worker_count m =
    let s := length (objects m) in
    let http2 := http2_config env in
    if start_result env (trace m) Http address worker_count http2 then
      Some (Some s,
            mkManager (<[address := s]> (_http_servers m))
              (objects m ++ [started env (fresh Http name) worker_count http2])
              (trace m ++ [EvStart s address worker_count http2 true]))
    else
      Some (None,
            mkManager (_http_servers m) (objects m ++ [fresh Http name])
              (trace m ++ [EvStart s address worker_count http2 false])).
Proof.
  intros Hfree. unfold CreateHttpServer.
  unfold bind at 1. unfold find. rewrite Hfree.
  unfold bind at 1. unfold make_shared.
  unfold bind at 1.
  erewrite HttpServer_Start_eq by apply lookup_fresh. simpl.
  destruct (start_result _ _ _ _ _ _); [|done].
  by rewrite insert_fresh.
Qed.

Lemma CreateHttpsServer_miss name address disable_http2_force worker_count m :
  _http_servers m !! address = None →
  CreateHttpsServer env name address disable_http2_force worker_count m =
    let s := length (objects m) in
    let http2 := http2_config env && negb disable_http2_force in
    if start_result env (trace m) Https address worker_count http2 then
      Some (Some s,
            mkManager (<[address := s]> (_http_servers m))
              (objects m ++ [started env (fresh Https name) worker_count http2])
              (trace m ++ [EvStart s address worker_count http2 true]))
    else
      Some (None,
            mkManager (_http_servers m) (objects m ++ [fresh Https name])
              (trace m ++ [EvStart s address worker_count http2 false])).
Proof.
  intros Hfree. unfold CreateHttpsServer.
  replace (if disable_http2_force then false else http2_config env)
    with (http2_config env && negb disable_http2_force)
    by (by destruct disable_http2_force, (http2_config env)).
  unfold bind at 1. unfold find. rewrite Hfree.
  unfold bind at 1. unfold make_shared.
  unfold bind at 1.
  erewrite HttpServer_Start_eq by apply lookup_fresh. simpl.
  destruct (start_result _ _ _ _ _ _); [|done].
  by rewrite insert_fresh.
Qed.

(** ** Creation on a taken address *)

Lemma CreateHttpServer_hit_https name address worker_count m s o :
  _http_servers m !! address = Some s →
  objects m !! s = Some o →
  server_type o = Https →
  CreateHttpServer env name address worker_count m =
    Some (None,
          mkManager (_http_servers m) (objects m)
            (trace m ++ [EvLog LogError (CannotReusePreviousIsHttps address)])).
Proof.
  intros Hreg Ho Hty. unfold CreateHttpServer.
  unfold bind at 1. unfold find. rewrite Hreg.
  unfold bind at 1. unfold deref. rewrite Ho, Hty. done.
Qed.

Lemma CreateHttpServer_hit_http name address worker_count m s o :
  _http_servers m !! address = Some s →
  objects m !! s = Some o →
  server_type o = Http →
  CreateHttpServer env name address worker_count m =
    Some (Some s,
          mkManager (_http_servers m) (objects m)
            (trace m ++ worker_count_warnings env o worker_count)).
Proof.
  intros Hreg Ho Hty. unfold CreateHttpServer, worker_count_warnings.
  destruct m as [reg objs tr]; simpl in *.
  unfold bind at 1. unfold find. simpl. rewrite Hreg.
  unfold bind at 1. unfold deref. simpl. rewrite Ho, Hty.
  destruct (negb (worker_count =? HTTP_SERVER_USE_DEFAULT_COUNT env));
    [destruct (physical_port o) as [w|];
       [destruct (negb (w =? worker_count))|]|];
    cbn; by rewrite <- ?app_assoc, ?app_nil_r.
Qed.

Lemma worker_count_warnings_quiet o worker_count :
  starts (worker_count_warnings env o worker_count) = [] ∧
  stops (worker_count_warnings env o worker_count) = [].
Proof.
  unfold worker_count_warnings.
  destruct (negb _); [destruct (physical_port o) as [w|];
                        [destruct (negb _)|]|]; done.
Qed.

Lemma CreateHttpsServer_hit_http name address force worker_count m s o :
  _http_servers m !! address = Some s →
  objects m !! s = Some o →
  server_type o = Http →
  CreateHttpsServer env name address force worker_count m =
    Some (None,
          mkManager (_http_servers m) (objects m)
            (trace m ++ [EvLog LogError (CannotReusePreviousIsHttp address)])).
Proof.
  intros Hreg Ho Hty. unfold CreateHttpsServer.
  unfold bind at 1. unfold find. rewrite Hreg.
  unfold bind at 1. unfold deref. rewrite Ho, Hty. done.
Qed.

(** On a taken HTTPS address the request is answered with the existing
    listener; the log grows by one warning when the protocol-upgrade
    flags differ, and by nothing otherwise: [worker_count] is not
    looked at. *)
Lemma CreateHttpsServer_hit_https name address force worker_count m s o :
  _http_servers m !! address = Some s →
  objects m !! s = Some o →
  server_type o = Https →
  CreateHttpsServer env name address force worker_count m =
    let http2 := http2_config env && negb force in
    Some (Some s,
          mkManager (_http_servers m) (objects m)
            (trace m ++
             if IsHttp2Enabled o && negb http2
             then [EvLog LogWarning (Http2PortUsedAsHttp11 address)]
             else if negb (IsHttp2Enabled o) && http2
             then [EvLog LogWarning (Http11PortUsedAsHttp2 address)]
             else [])).
Proof.
  intros Hreg Ho Hty. unfold CreateHttpsServer.
  replace (if force then false else http2_config env)
    with (http2_config env && negb force)
    by (by destruct force, (http2_config env)).
  destruct m as [reg objs tr]; simpl in *.
  unfold bind at 1. unfold find. simpl. rewrite Hreg.
  unfold bind at 1. unfold deref. simpl. rewrite Ho, Hty. cbn.
  destruct (IsHttp2Enabled o), (http2_config env && negb force); cbn;
    by rewrite ?app_nil_r.
Qed.

(** ** Release *)

(** C9: [ReleaseServer] on a null handle returns [false] and does
    nothing else: the manager, and with it the trace, is as before, so
    [Stop] was invoked on nothing. *)
Theorem ReleaseServer_null m : ReleaseServer env None m = Some (false, m).
Proof. reflexivity. Qed.

(** C5: [ReleaseServer] on a registered handle invokes [Stop] on it once
    and returns what [Stop] returned; [_http_servers] is left as it was,
    so the address still maps to the handle, and [GetHttpsServer] still
    answers with it when it is an HTTPS listener, although a successful
    [Stop] has taken its port away. *)
Theorem ReleaseServer_keeps_entry address s o m :
  _http_servers m !! address = Some s →
  objects m !! s = Some o →
  ∃ m',
    ReleaseServer env (Some s) m = Some (stop_result env (trace m) s, m') ∧
    trace m' = trace m ++ [EvStop s (stop_result env (trace m) s)] ∧
    _http_servers m' = _http_servers m ∧
    _http_servers m' !! address = Some s ∧
    (stop_result env (trace m) s = true → WorkerCount m' s = None) ∧
    (server_type o = Https →
     GetHttpsServer address m' = Some (Some s, m')).
Proof.
  intros Hreg Ho. simpl. rewrite (HttpServer_Stop_eq _ _ _ Ho). cbv zeta.
  eexists. split; [reflexivity|]. simpl.
  assert (Hlt : (s < length (objects m))%nat) by by eapply lookup_lt_Some.
  repeat split; try done.
  - intros ->. unfold WorkerCount. simpl.
    by rewrite list_lookup_insert_eq.
  - intros Hty. unfold GetHttpsServer, bind, find, deref. simpl.
    rewrite Hreg.
    destruct (stop_result env (trace m) s); cbn [objects].
    + rewrite list_lookup_insert_eq by done. simpl. by rewrite Hty.
    + by rewrite Ho, Hty.
Qed.

(** ** Type conflicts *)

(** C2: [CreateHttpServer] on an address registered with an HTTPS
    listener returns null; it writes the error line of the type conflict
    and changes neither [_http_servers] nor any server object. *)
Theorem CreateHttpServer_on_https_address name address worker_count m s o :
  _http_servers m !! address = Some s →
  objects m !! s = Some o →
  server_type o = Https →
  ∃ m',
    CreateHttpServer env name address worker_count m = Some (None, m') ∧
    _http_servers m' = _http_servers m ∧
    objects m' = objects m ∧
    trace m' =
      trace m ++ [EvLog LogError (CannotReusePreviousIsHttps address)].
Proof.
  intros Hreg Ho Hty.
  rewrite (CreateHttpServer_hit_https _ _ _ _ _ _ Hreg Ho Hty).
  by eexists.
Qed.

(** ** Creation on a free address *)

(** C7: on an address with no entry, [CreateHttpServer] and
    [CreateHttpsServer] invoke [Start] once; when it fails they return
    null and leave [_http_servers] as it was, and when it succeeds they
    return the new handle and register it at the address. *)
Theorem creation_registers_iff_started name address force worker_count m :
  _http_servers m !! address = None →
  (∃ r m' ok,
     CreateHttpServer env name address worker_count m = Some (r, m') ∧
     trace m' = trace m ++ [EvStart (length (objects m)) address worker_count
                              (http2_config env) ok] ∧
     (ok = false → r = None ∧ _http_servers m' = _http_servers m) ∧
     (ok = true →
      r = Some (length (objects m)) ∧
      _http_servers m' =
        <[address := length (objects m)]> (_http_servers m))) ∧
  (∃ r m' ok,
     CreateHttpsServer env name address force worker_count m = Some (r, m') ∧
     trace m' = trace m ++ [EvStart (length (objects m)) address worker_count
                              (http2_config env && negb force) ok] ∧
     (ok = false → r = None ∧ _http_servers m' = _http_servers m) ∧
     (ok = true →
      r = Some (length (objects m)) ∧
      _http_servers m' =
        <[address := length (objects m)]> (_http_servers m))).
Proof.
  intros Hfree. split.
  - rewrite (CreateHttpServer_miss _ _ _ _ Hfree). cbv zeta.
    destruct (start_result _ _ _ _ _ _).
    + eexists _, _, true. by repeat split.
    + eexists _, _, false. by repeat split.
  - rewrite (CreateHttpsServer_miss _ _ _ _ _ Hfree). cbv zeta.
    destruct (start_result _ _ _ _ _ _).
    + eexists _, _, true. by repeat split.
    + eexists _, _, false. by repeat split.
Qed.

(** C8: when [CreateHttpsServer] creates a listener, the HTTP/2 flag it
    passes to [Start] is the module configuration's value and-ed with
    the negation of [disable_http2_force]. *)
Theorem CreateHttpsServer_start_flag name address force worker_count m :
  _http_servers m !! address = None →
  ∃ r m' ok,
    CreateHttpsServer env name address force worker_count m = Some (r, m') ∧
    trace m' =
      trace m ++ [EvStart (length (objects m)) address worker_count
                    (http2_config env && negb force) ok].
Proof.
  intros Hfree.
  rewrite (CreateHttpsServer_miss _ _ _ _ _ Hfree). cbv zeta.
  destruct (start_result _ _ _ _ _ _); by eexists _, _, _.
Qed.

(** C4: when the overload with a certificate creates a listener and the
    certificate is then refused, it returns null, yet the listener stays
    registered at the address, bound to its port: nothing was stopped. *)
Theorem CreateHttpsServer_certificate_no_rollback
    name address certificate force worker_count m :
  let s := length (objects m) in
  let http2 := http2_config env && negb force in
  _http_servers m !! address = None →
  start_result env (trace m) Https address worker_count http2 = true →
  append_certificate_result env
    (trace m ++ [EvStart s address worker_count http2 true])
    s certificate = false →
  ∃ m',
    CreateHttpsServer_certificate env name address certificate force
      worker_count m = Some (None, m') ∧
    _http_servers m' = <[address := s]> (_http_servers m) ∧
    _http_servers m' !! address = Some s ∧
    objects m' !! s =
      Some (started env (fresh Https name) worker_count http2) ∧
    stops (trace m') = stops (trace m).
Proof.
  intros s http2 Hfree Hstart Hcert.
  unfold CreateHttpsServer_certificate. unfold bind at 1.
  rewrite (CreateHttpsServer_miss _ _ _ _ _ Hfree). cbv zeta.
  fold s http2. rewrite Hstart. unfold bind at 1.
  erewrite HttpsServer_AppendCertificate_eq by apply lookup_fresh.
  cbn [trace]. cbv zeta. rewrite Hcert. cbn.
  eexists. split; [reflexivity|]. cbn.
  repeat split.
  - apply lookup_insert_eq.
  - apply lookup_fresh.
  - rewrite !stops_app. cbn. by rewrite !app_nil_r.
Qed.

(** ** Reuse *)

(** C6, amended: on an address with no entry, when the [Start] of a
    first [CreateHttpServer] succeeds, a second [CreateHttpServer] on
    the address returns the same handle and invokes no [Start]: the
    listener was started exactly once. *)
Theorem CreateHttpServer_reuse name1 name2 address wc1 wc2 m :
  _http_servers m !! address = None →
  start_result env (trace m) Http address wc1 (http2_config env) = true →
  ∃ s m1 m2,
    CreateHttpServer env name1 address wc1 m = Some (Some s, m1) ∧
    CreateHttpServer env name2 address wc2 m1 = Some (Some s, m2) ∧
    starts (trace m1) = starts (trace m) ++ [s] ∧
    starts (trace m2) = starts (trace m1) ∧
    _http_servers m2 = _http_servers m1 ∧
    objects m2 = objects m1.
Proof.
  intros Hfree Hstart.
  rewrite (CreateHttpServer_miss _ _ _ _ Hfree). cbv zeta. rewrite Hstart.
  eexists _, _, _. split; [reflexivity|].
  erewrite CreateHttpServer_hit_http;
    [| apply lookup_insert_eq | apply lookup_fresh | reflexivity ].
  split; [reflexivity|]. cbn.
  rewrite !starts_app.
  rewrite (proj1 (worker_count_warnings_quiet _ _)).
  cbn. by rewrite !app_nil_r.
Qed.


(** ** Well-formedness *)

Lemma wf_trace reg objs tr tr' :
  wf (mkManager reg objs tr) → wf (mkManager reg objs tr').
Proof. done. Qed.

Lemma wf_allocated m address s :
  wf m → registered m address s → is_Some (objects m !! s).
Proof.
  intros Hwf Hreg. apply lookup_lt_is_Some_2. by eapply (Hwf address).
Qed.

Lemma wf_grow reg objs tr o tr' :
  wf (mkManager reg objs tr) → wf (mkManager reg (objs ++ [o]) tr').
Proof.
  unfold wf. simpl. intros Hwf. eapply map_Forall_impl; [exact Hwf|].
  simpl. intros _ s Hs. rewrite length_app. lia.
Qed.

Lemma wf_register reg objs tr o tr' address :
  wf (mkManager reg objs tr) →
  wf (mkManager (<[address := length objs]> reg) (objs ++ [o]) tr').
Proof.
  intros Hwf. unfold wf. simpl. apply map_Forall_insert_2.
  - rewrite length_app. simpl. lia.
  - exact (wf_grow reg objs tr o tr Hwf).
Qed.

Lemma wf_update reg objs tr s o tr' :
  wf (mkManager reg objs tr) → wf (mkManager reg (<[s := o]> objs) tr').
Proof. unfold wf. simpl. by rewrite length_insert. Qed.

Lemma wf_empty_manager : wf empty_manager.
Proof. apply map_Forall_empty. Qed.

Lemma ReleaseServer_wf s m :
  wf m →
  is_Some (objects m !! s) →
  ∃ b m', ReleaseServer env (Some s) m = Some (b, m') ∧ wf m'.
Proof.
  intros Hwf [o Ho]. simpl. rewrite (HttpServer_Stop_eq _ _ _ Ho).
  cbv zeta. eexists _, _. split; [done|].
  destruct m as [reg objs tr]. simpl.
  destruct (stop_result _ _ _); [by eapply wf_update | done].
Qed.

(** ** The creation functions are good *)

Ltac good_side :=
  first
    [ done
    | by eapply wf_register
    | by eapply wf_grow
    | by eapply wf_update
    | by apply insert_subseteq
    | by intros ? [= <-]; first [ apply lookup_insert_eq | eauto ] ].

Lemma CreateHttpServer_good name worker_count :
  good_creation (λ address, CreateHttpServer env name address worker_count).
Proof.
  intros address [reg objs tr] Hwf.
  destruct (reg !! address) as [s|] eqn:Hreg.
  - destruct (wf_allocated _ address s Hwf Hreg) as [o Ho].
    simpl in Ho. destruct (server_type o) eqn:Hty.
    + erewrite CreateHttpServer_hit_http by done. simpl.
      eexists _, _. split; [done|]. simpl.
      rewrite stops_app, (proj2 (worker_count_warnings_quiet _ _)).
      rewrite app_nil_r. repeat split; good_side.
    + erewrite CreateHttpServer_hit_https by done. simpl.
      eexists _, _. split; [done|]. simpl.
      rewrite stops_app, app_nil_r. repeat split; good_side.
  - rewrite CreateHttpServer_miss by done. cbv zeta. simpl.
    destruct (start_result _ _ _ _ _ _);
      (eexists _, _; split; [done|]); simpl;
      rewrite stops_app, app_nil_r; repeat split; good_side.
Qed.

Lemma CreateHttpsServer_good name force worker_count :
  good_creation
    (λ address, CreateHttpsServer env name address force worker_count).
Proof.
  intros address [reg objs tr] Hwf.
  destruct (reg !! address) as [s|] eqn:Hreg.
  - destruct (wf_allocated _ address s Hwf Hreg) as [o Ho].
    simpl in Ho. destruct (server_type o) eqn:Hty.
    + erewrite CreateHttpsServer_hit_http by done. simpl.
      eexists _, _. split; [done|]. simpl.
      rewrite stops_app, app_nil_r. repeat split; good_side.
    + erewrite CreateHttpsServer_hit_https by done. cbv zeta. simpl.
      eexists _, _. split; [done|]. simpl.
      rewrite stops_app.
      assert (Hquiet :
        stops (if IsHttp2Enabled o && negb (http2_config env && negb force)
               then [EvLog LogWarning (Http2PortUsedAsHttp11 address)]
               else if negb (IsHttp2Enabled o)
                       && (http2_config env && negb force)
               then [EvLog LogWarning (Http11PortUsedAsHttp2 address)]
               else []) = []).
      { destruct (_ && _); [|destruct (_ && _)]; done. }
      rewrite Hquiet, app_nil_r. repeat split; good_side.
  - rewrite CreateHttpsServer_miss by done. cbv zeta. simpl.
    destruct (start_result _ _ _ _ _ _);
      (eexists _, _; split; [done|]); simpl;
      rewrite stops_app, app_nil_r; repeat split; good_side.
Qed.

Lemma CreateHttpsServer_certificate_good name certificate force worker_count :
  good_creation
    (λ address, CreateHttpsServer_certificate env name address certificate
                  force worker_count).
Proof.
  intros address m Hwf.
  destruct (CreateHttpsServer_good name force worker_count address m Hwf)
    as (r & [reg1 objs1 tr1] & Hcreate & Hwf1 & Hsub & Hstops & Hreg).
  unfold CreateHttpsServer_certificate. unfold bind at 1. rewrite Hcreate.
  destruct r as [s|]; [|by eexists _, _].
  destruct (wf_allocated _ address s Hwf1 (Hreg s eq_refl)) as [o Ho].
  unfold bind at 1.
  rewrite (HttpsServer_AppendCertificate_eq _ _ _ _ Ho). cbv zeta.
  simpl in *.
  destruct (append_certificate_result _ _ _ _); cbn;
    (eexists _, _; split; [done|]); simpl;
    rewrite ?stops_app; simpl; rewrite ?app_nil_r; repeat split; good_side.
Qed.

(** ** Releasing a list *)

Lemma ReleaseServers_spec server_list : ∀ m,
  Forall (λ s, is_Some (objects m !! s)) server_list →
  ∃ m',
    ReleaseServers env server_list m = Some (tt, m') ∧
    _http_servers m' = _http_servers m ∧
    length (objects m') = length (objects m) ∧
    starts (trace m') = starts (trace m) ∧
    stops (trace m') = stops (trace m) ++ server_list.
Proof.
  induction server_list as [|s rest IH]; intros m Hall.
  - exists m. by rewrite app_nil_r.
  - apply Forall_cons in Hall as [[o Ho] Hrest].
    cbn [ReleaseServers ReleaseServer]. unfold bind at 1.
    rewrite (HttpServer_Stop_eq _ _ _ Ho). cbv zeta.
    set (m1 := mkManager _ _ _).
    assert (Hlen : length (objects m1) = length (objects m)).
    { unfold m1. simpl. destruct (stop_result _ _ _); [|done].
      apply length_insert. }
    destruct (IH m1) as (m' & Hrun & Hreg & Hlen' & Hstarts & Hstops).
    { eapply Forall_impl; [exact Hrest|]. intros s' Hs'.
      apply lookup_lt_is_Some_2. rewrite Hlen.
      by apply lookup_lt_is_Some_1. }
    exists m'. split; [done|]. repeat split.
    + by rewrite Hreg.
    + by rewrite Hlen'.
    + rewrite Hstarts. unfold m1. simpl. rewrite starts_app. simpl.
      by rewrite app_nil_r.
    + rewrite Hstops. unfold m1. simpl. rewrite stops_app. simpl.
      by rewrite <- app_assoc.
Qed.

(** ** Batch creation *)

Section Batch.

Variable http_server_name : string.
Variable port : Z.
Variable f : SocketAddress → M (option Handle).
Variable callback : bool.
Hypothesis f_good : good_creation f.

Lemma registered_weaken m m' address s :
  _http_servers m ⊆ _http_servers m' →
  registered m address s → registered m' address s.
Proof. intros Hsub Hreg. by eapply lookup_weaken. Qed.

(** The inner loop.  When it goes through, the grown list holds, in
    order, the handles registered at the addresses processed.  When a
    creation fails, [Stop] is invoked, in order, on the handles
    accumulated for the addresses before the failing one. *)
Lemma create_on_addresses_spec address_list : ∀ processed server_list m,
  wf m →
  Forall2 (registered m) processed server_list →
  ∃ r m',
    create_on_addresses env http_server_name f callback
      address_list server_list m = Some (r, m') ∧
    wf m' ∧
    _http_servers m ⊆ _http_servers m' ∧
    match r with
    | Some server_list' =>
        Forall2 (registered m') (processed ++ address_list) server_list' ∧
        stops (trace m') = stops (trace m)
    | None =>
        ∃ before failing after accumulated,
          address_list = before ++ failing :: after ∧
          Forall2 (registered m') (processed ++ before) accumulated ∧
          stops (trace m') = stops (trace m) ++ accumulated
    end.
Proof.
  induction address_list as [|address rest IH];
    intros processed server_list m Hwf Hacc.
  - exists (Some server_list), m. rewrite app_nil_r. by repeat split.
  - cbn [create_on_addresses]. unfold bind at 1. unfold logtd.
    unfold emit at 1.
    destruct m as [reg objs tr].
    cbn [_http_servers objects trace] in *.
    unfold bind at 1.
    destruct (f_good address
                (mkManager reg objs
                   (tr ++ [EvLog LogDebug
                             (AttemptingToCreate http_server_name address)])))
      as (r & [reg2 objs2 tr2] & Hf & Hwf2 & Hsub & Hstops & Hreg);
      [by eapply wf_trace|].
    rewrite Hf. simpl in Hsub, Hstops.
    rewrite stops_app in Hstops. simpl in Hstops.
    rewrite app_nil_r in Hstops.
    destruct r as [s|].
    + unfold bind at 1.
      set (m3 := mkManager reg2 objs2
                   (tr2 ++ if callback then [EvCallback address s] else [])).
      assert (Hstep :
        (if callback then emit (EvCallback address s) else ret tt)
          (mkManager reg2 objs2 tr2) = Some (tt, m3)).
      { unfold m3. destruct callback; cbn; by rewrite ?app_nil_r. }
      rewrite Hstep.
      destruct (IH (processed ++ [address]) (server_list ++ [s]) m3)
        as (r & m' & Hrun & Hwf' & Hsub' & Hres).
      { by eapply wf_trace. }
      { apply Forall2_app.
        - eapply Forall2_impl; [exact Hacc|]. intros a' s' Ha'.
          exact (registered_weaken (mkManager reg objs tr) m3 a' s' Hsub Ha').
        - constructor; [|constructor]. by apply Hreg. }
      exists r, m'. split; [done|]. split; [done|].
      split; [by etrans|].
      assert (Hstops3 : stops (trace m3) = stops tr).
      { unfold m3. simpl. rewrite stops_app, Hstops.
        destruct callback; simpl; by rewrite app_nil_r. }
      destruct r as [server_list'|].
      * destruct Hres as [Hall Hs]. rewrite <- app_assoc in Hall.
        split; [done|]. by rewrite Hs.
      * destruct Hres as (before & failing & after & accumulated
                          & -> & Hall & Hs).
        exists (address :: before), failing, after, accumulated.
        rewrite <- app_assoc in Hall.
        split; [done|]. split; [done|]. by rewrite Hs, Hstops3.
    + unfold bind at 1. unfold logte, emit.
      cbn [_http_servers objects trace].
      unfold bind at 1.
      set (m4 := mkManager reg2 objs2 _).
      assert (Hacc4 : Forall2 (registered m4) processed server_list).
      { eapply Forall2_impl; [exact Hacc|]. intros a' s' Ha'.
        exact (registered_weaken (mkManager reg objs tr) m4 a' s' Hsub Ha'). }
      destruct (ReleaseServers_spec server_list m4)
        as (m' & Hrel & Hreg' & Hlen & _ & Hstops').
      { apply Forall2_Forall_r with (P := registered m4) (l := processed);
          [done|].
        apply Forall_forall. intros a' _ s' Ha'.
        eapply wf_allocated; [|exact Ha']. by eapply wf_trace. }
      rewrite Hrel. cbn.
      eexists None, m'. split; [done|]. repeat split.
      * unfold wf. rewrite Hreg', Hlen. by eapply wf_trace.
      * by rewrite Hreg'.
      * exists [], address, rest, server_list. split; [done|].
        rewrite app_nil_r. split.
        -- eapply Forall2_impl; [exact Hacc4|]. intros a' s' Ha'.
           unfold registered in *. by rewrite Hreg'.
        -- rewrite Hstops'. unfold m4. simpl. rewrite stops_app. simpl.
           by rewrite app_nil_r, Hstops.
Qed.

(** The outer loop.  Its [return false] on a host that does not resolve
    comes with no promise; when every host resolves, a failure is a
    creation failure and the inner loop has released the handles
    accumulated before it. *)
Lemma create_on_ips_spec server_ip_list : ∀ processed server_list m,
  wf m →
  Forall2 (registered m) processed server_list →
  ∃ r m',
    create_on_ips env http_server_name port f callback
      server_ip_list server_list m = Some (r, m') ∧
    wf m' ∧
    _http_servers m ⊆ _http_servers m' ∧
    match r with
    | Some server_list' =>
        (∃ address_list,
           resolve_all env server_ip_list port = Some address_list ∧
           Forall2 (registered m') (processed ++ address_list) server_list') ∧
        stops (trace m') = stops (trace m)
    | None =>
        ∀ address_list,
          resolve_all env server_ip_list port = Some address_list →
          ∃ before failing after accumulated,
            address_list = before ++ failing :: after ∧
            Forall2 (registered m') (processed ++ before) accumulated ∧
            stops (trace m') = stops (trace m) ++ accumulated
    end.
Proof.
  induction server_ip_list as [|server_ip rest IH];
    intros processed server_list m Hwf Hacc.
  - exists (Some server_list), m. repeat split; try done.
    exists []. by rewrite app_nil_r.
  - cbn [create_on_ips resolve_all].
    destruct (SocketAddress_Create env server_ip port) as [address_list|].
    + unfold bind at 1.
      destruct (create_on_addresses_spec address_list processed
                  server_list m Hwf Hacc)
        as (r & m1 & Hrun & Hwf1 & Hsub1 & Hres).
      rewrite Hrun. destruct r as [server_list1|].
      * destruct Hres as [Hall Hs1].
        destruct (IH (processed ++ address_list) server_list1 m1 Hwf1 Hall)
          as (r & m' & Hrun' & Hwf' & Hsub' & Hres').
        exists r, m'. split; [done|]. split; [done|].
        split; [by etrans|].
        destruct r as [server_list'|].
        -- destruct Hres' as [(l & -> & Hall') Hs']. split.
           ++ exists (address_list ++ l). by rewrite app_assoc.
           ++ by rewrite Hs'.
        -- intros all Hall_eq.
           destruct (resolve_all env rest port) as [l|] eqn:Hl; [|done].
           injection Hall_eq as <-.
           destruct (Hres' l eq_refl)
             as (before & failing & after & accumulated & -> & Hb & Hs').
           exists (address_list ++ before), failing, after, accumulated.
           rewrite <- !app_assoc in *.
           split; [done|]. split; [done|]. by rewrite Hs', Hs1.
      * exists None, m1. split; [done|]. split; [done|]. split; [done|].
        intros all Hall_eq.
        destruct (resolve_all env rest port) as [l|] eqn:Hl; [|done].
        injection Hall_eq as <-.
        destruct Hres
          as (before & failing & after & accumulated & -> & Hb & Hs').
        exists before, failing, (after ++ l), accumulated.
        rewrite <- !app_assoc. by repeat split.
    + destruct m as [reg objs tr]. cbn.
      eexists None, _. split; [done|]. by repeat split.
Qed.

Lemma CreateServers_spec http_server_list server_ip_list m :
  wf m →
  ∃ b http_server_list' m',
    CreateServers env http_server_name port f callback
      http_server_list server_ip_list m
      = Some ((b, http_server_list'), m') ∧
    wf m' ∧
    _http_servers m ⊆ _http_servers m' ∧
    if b then
      ∃ address_list created,
        resolve_all env server_ip_list port = Some address_list ∧
        http_server_list' = http_server_list ++ created ∧
        Forall2 (registered m') address_list created
    else http_server_list' = http_server_list.
Proof.
  intros Hwf. unfold CreateServers. unfold bind at 1.
  destruct (create_on_ips_spec server_ip_list [] [] m Hwf)
    as (r & m' & Hrun & Hwf' & Hsub & Hres); [constructor|].
  rewrite Hrun. destruct r as [server_list|].
  - destruct Hres as [(address_list & Hresolve & Hall) _].
    exists true, (http_server_list ++ server_list), m'.
    repeat split; try done. by exists address_list, server_list.
  - by exists false, http_server_list, m'.
Qed.


End Batch.

(** C10: batch creation returns; when it returns [false] the caller's
    list is as it was, and when it returns [true] the list is the old
    one followed by one handle per resolved address, in processing
    order: the handle registered at that address. *)
Theorem CreateServers_output_list
    http_server_list name server_ip_list port certificate force callback
    worker_count m :
  wf m →
  (∃ b http_server_list' m',
     CreateHttpServers env http_server_list name server_ip_list port
       callback worker_count m = Some ((b, http_server_list'), m') ∧
     if b then
       ∃ address_list created,
         resolve_all env server_ip_list port = Some address_list ∧
         http_server_list' = http_server_list ++ created ∧
         Forall2 (registered m') address_list created
     else http_server_list' = http_server_list) ∧
  (∃ b http_server_list' m',
     CreateHttpsServers env http_server_list name server_ip_list port
       certificate force callback worker_count m
       = Some ((b, http_server_list'), m') ∧
     if b then
       ∃ address_list created,
         resolve_all env server_ip_list port = Some address_list ∧
         http_server_list' = http_server_list ++ created ∧
         Forall2 (registered m') address_list created
     else http_server_list' = http_server_list).
Proof.
  intros Hwf. split.
  - destruct (CreateServers_spec "HTTP" port _ callback
                (CreateHttpServer_good name worker_count)
                http_server_list server_ip_list m Hwf)
      as (b & l & m' & Hrun & _ & _ & Hres).
    by exists b, l, m'.
  - destruct (CreateServers_spec "HTTPS" port _ callback
                (CreateHttpsServer_certificate_good name certificate force
                   worker_count)
                http_server_list server_ip_list m Hwf)
      as (b & l & m' & Hrun & _ & _ & Hres).
    by exists b, l, m'.
Qed.
End Properties.

(** ** Concrete runs *)

(** C3, the code at worker counts 5 then 9: both calls of
    [CreateHttpsServer] return the same handle, whose port keeps 5
    workers, but the second call leaves the manager exactly as the first
    one left it: the log holds no warning. *)
Theorem CreateHttpsServer_worker_count_mismatch_is_silent :
  CreateHttpsServer env_ok "tls" addr1 false 5 empty_manager
    = Some (Some 0%nat, https_manager) ∧
  CreateHttpsServer env_ok "second" addr1 false 9 https_manager
    = Some (Some 0%nat, https_manager) ∧
  WorkerCount https_manager 0%nat = Some 5 ∧
  warnings (trace https_manager) = [].
Proof. split_and!; vm_compute; reflexivity. Qed.

(** The plain path on the same input does warn. *)
Example CreateHttpServer_worker_count_mismatch_warns :
  CreateHttpServer env_ok "plain" addr1 5 empty_manager
    = Some (Some 0%nat, http_manager) ∧
  CreateHttpServer env_ok "second" addr1 9 http_manager
    = Some (Some 0%nat,
            mkManager (_http_servers http_manager) (objects http_manager)
              (trace http_manager ++
               [EvLog LogWarning (WorkerCountDiffers 5 9);
                EvLog LogWarning (FirstInitializedCountUsed 5)])).
Proof. split_and!; vm_compute; reflexivity. Qed.

(** C1, the code on a batch whose second host does not resolve: the
    batch returns [false] and leaves the caller's list alone, but the
    listener created for the first host is released by nobody: no
    [Stop] is invoked, and it stays registered and bound to its port. *)
Theorem CreateHttpServers_unresolvable_host_leaks :
  let m' :=
    mkManager {[ addr1 := 0%nat ]}
      [mkServerObject Http "svc" (Some 5) true []]
      [EvLog LogDebug (AttemptingToCreate "HTTP" addr1);
       EvStart 0%nat addr1 5 true true;
       EvLog LogError (CouldNotListen "HTTP" "unresolvable")] in
  CreateHttpServers env_ok [] "svc" ["10.0.0.1"; "unresolvable"] 8080
    false 5 empty_manager = Some ((false, []), m') ∧
  registered m' addr1 0%nat ∧
  WorkerCount m' 0%nat = Some 5 ∧
  stops (trace m') = [].
Proof. cbv zeta. split_and!; vm_compute; reflexivity. Qed.

(** The sibling path: when the second host resolves and its creation
    fails, the listener of the first host is stopped. *)
Example CreateHttpServers_creation_failure_releases :
  CreateHttpServers env_one_port [] "svc" ["10.0.0.1"; "10.0.0.2"] 8080
    false 5 empty_manager
  = Some ((false, []),
          mkManager {[ addr1 := 0%nat ]}
            [mkServerObject Http "svc" None true []; fresh Http "svc"]
            [EvLog LogDebug (AttemptingToCreate "HTTP" addr1);
             EvStart 0%nat addr1 5 true true;
             EvLog LogDebug (AttemptingToCreate "HTTP" addr2);
             EvStart 1%nat addr2 5 true false;
             EvLog LogError (CouldNotInitialize addr2);
             EvStop 0%nat true]).
Proof. vm_compute. reflexivity. Qed.

(** C6 as stated fails: when the port is busy at the first attempt, no
    handle is returned by both calls with a single [Start] behind it. *)
Lemma CreateHttpServer_reuse_counterexample :
  _http_servers empty_manager !! addr1 = None ∧
  ¬ ∃ r m1 m2,
      CreateHttpServer env_busy_once "svc" addr1 5 empty_manager
        = Some (r, m1) ∧
      CreateHttpServer env_busy_once "svc" addr1 5 m1 = Some (r, m2) ∧
      length (starts (trace m2)) = 1%nat ∧
      starts (trace m2) = starts (trace m1).
Proof.
  split; [vm_compute; reflexivity|].
  intros (r & m1 & m2 & H1 & H2 & _).
  vm_compute in H1. injection H1 as <- <-.
  vm_compute in H2. discriminate H2.
Qed.

(** What the two calls do there: the first returns null, the second
    starts a second object and returns it. *)
Example CreateHttpServer_busy_once :
  let m1 :=
    mkManager ∅ [fresh Http "svc"] [EvStart 0%nat addr1 5 true false] in
  CreateHttpServer env_busy_once "svc" addr1 5 empty_manager
    = Some (None, m1) ∧
  CreateHttpServer env_busy_once "svc" addr1 5 m1
    = Some (Some 1%nat,
            mkManager {[ addr1 := 1%nat ]}
              [fresh Http "svc"; mkServerObject Http "svc" (Some 5) true []]
              [EvStart 0%nat addr1 5 true false;
               EvStart 1%nat addr1 5 true true]).
Proof. cbv zeta. split_and!; vm_compute; reflexivity. Qed.

(** ** Instances of the conditional statements *)

Lemma ReleaseServer_keeps_entry_witness :
  ∃ m',
    ReleaseServer env_ok (Some 0%nat) https_manager = Some (true, m') ∧
    trace m' = trace https_manager ++ [EvStop 0%nat true] ∧
    _http_servers m' = _http_servers https_manager ∧
    _http_servers m' !! addr1 = Some 0%nat ∧
    (true = true → WorkerCount m' 0%nat = None) ∧
    (Https = Https → GetHttpsServer addr1 m' = Some (Some 0%nat, m')).
Proof.
  apply (ReleaseServer_keeps_entry env_ok addr1 0%nat
           (mkServerObject Https "tls" (Some 5) true []) https_manager);
    vm_compute; reflexivity.
Defined.

Lemma CreateHttpServer_on_https_address_witness :
  ∃ m',
    CreateHttpServer env_ok "plain" addr1 5 https_manager = Some (None, m') ∧
    _http_servers m' = _http_servers https_manager ∧
    objects m' = objects https_manager ∧
    trace m' =
      trace https_manager
      ++ [EvLog LogError (CannotReusePreviousIsHttps addr1)].
Proof.
  apply (CreateHttpServer_on_https_address env_ok "plain" addr1 5
           https_manager 0%nat
           (mkServerObject Https "tls" (Some 5) true []));
    vm_compute; reflexivity.
Defined.

Lemma creation_registers_iff_started_witness :
  (∃ r m' ok,
     CreateHttpServer env_one_port "svc" addr2 5 https_manager
       = Some (r, m') ∧
     trace m' = trace https_manager ++ [EvStart 1%nat addr2 5 true ok] ∧
     (ok = false → r = None ∧ _http_servers m' = _http_servers https_manager) ∧
     (ok = true →
      r = Some 1%nat ∧
      _http_servers m' = <[addr2 := 1%nat]> (_http_servers https_manager))) ∧
  (∃ r m' ok,
     CreateHttpsServer env_one_port "svc" addr2 true 5 https_manager
       = Some (r, m') ∧
     trace m' = trace https_manager ++ [EvStart 1%nat addr2 5 false ok] ∧
     (ok = false → r = None ∧ _http_servers m' = _http_servers https_manager) ∧
     (ok = true →
      r = Some 1%nat ∧
      _http_servers m' = <[addr2 := 1%nat]> (_http_servers https_manager))).
Proof.
  apply (creation_registers_iff_started env_one_port "svc" addr2 true 5
           https_manager).
  vm_compute; reflexivity.
Defined.

Lemma CreateHttpsServer_start_flag_witness :
  ∃ r m' ok,
    CreateHttpsServer env_ok "svc" addr2 true 5 https_manager
      = Some (r, m') ∧
    trace m' = trace https_manager ++ [EvStart 1%nat addr2 5 false ok].
Proof.
  apply (CreateHttpsServer_start_flag env_ok "svc" addr2 true 5
           https_manager).
  vm_compute; reflexivity.
Defined.

Lemma CreateHttpsServer_certificate_no_rollback_witness :
  ∃ m',
    CreateHttpsServer_certificate env_bad_certificate "svc" addr1 "cert"
      false 5 empty_manager = Some (None, m') ∧
    _http_servers m' = <[addr1 := 0%nat]> ∅ ∧
    _http_servers m' !! addr1 = Some 0%nat ∧
    objects m' !! 0%nat = Some (mkServerObject Https "svc" (Some 5) true []) ∧
    stops (trace m') = [].
Proof.
  apply (CreateHttpsServer_certificate_no_rollback env_bad_certificate
           "svc" addr1 "cert" false 5 empty_manager);
    vm_compute; reflexivity.
Defined.

Lemma CreateHttpServer_reuse_witness :
  ∃ s m1 m2,
    CreateHttpServer env_ok "first" addr1 5 empty_manager
      = Some (Some s, m1) ∧
    CreateHttpServer env_ok "second" addr1 9 m1 = Some (Some s, m2) ∧
    starts (trace m1) = starts (trace empty_manager) ++ [s] ∧
    starts (trace m2) = starts (trace m1) ∧
    _http_servers m2 = _http_servers m1 ∧
    objects m2 = objects m1.
Proof.
  apply (CreateHttpServer_reuse env_ok "first" "second" addr1 5 9
           empty_manager);
    vm_compute; reflexivity.
Defined.

Lemma CreateServers_output_list_witness :
  wf https_manager ∧
  (∃ b http_server_list' m',
     CreateHttpServers env_ok [7%nat] "svc" ["10.0.0.2"; "10.0.0.3"] 8080
       true 5 https_manager = Some ((b, http_server_list'), m') ∧
     if b then
       ∃ address_list created,
         resolve_all env_ok ["10.0.0.2"; "10.0.0.3"] 8080
           = Some address_list ∧
         http_server_list' = [7%nat] ++ created ∧
         Forall2 (registered m') address_list created
     else http_server_list' = [7%nat]) ∧
  (∃ b http_server_list' m',
     CreateHttpsServers env_ok [7%nat] "svc" ["10.0.0.2"; "10.0.0.3"] 8080
       "cert" false true 5 https_manager
       = Some ((b, http_server_list'), m') ∧
     if b then
       ∃ address_list created,
         resolve_all env_ok ["10.0.0.2"; "10.0.0.3"] 8080
           = Some address_list ∧
         http_server_list' = [7%nat] ++ created ∧
         Forall2 (registered m') address_list created
     else http_server_list' = [7%nat]).
Proof.
  assert (Hwf : wf https_manager).
  { apply (bool_decide_unpack _). vm_compute. reflexivity. }
  split; [exact Hwf|].
  apply (CreateServers_output_list env_ok [7%nat] "svc"
           ["10.0.0.2"; "10.0.0.3"] 8080 "cert" false true 5
           https_manager Hwf).
Defined.

(** * Further properties *)

Section Lookup.

Variable env : Environment.

Implicit Types (m : HttpServerManager) (address : SocketAddress).
Implicit Types (s : Handle) (o : ServerObject) (tr : list Event).

Lemma bind_Some {A B : Type} (c : M A) (k : A → M B) m r m' :
  bind c k m = Some (r, m') →
  ∃ a m1, c m = Some (a, m1) ∧ k a m1 = Some (r, m').
Proof.
  unfold bind. destruct (c m) as [[a m1]|]; [|done]. by exists a, m1.
Qed.

Lemma callbacks_app tr1 tr2 :
  callbacks (tr1 ++ tr2) = callbacks tr1 ++ callbacks tr2.
Proof.
  induction tr1 as [|e tr1 IH]; [done|].
  destruct e; simpl; by rewrite ?IH.
Qed.

Lemma certificate_calls_app tr1 tr2 :
  certificate_calls (tr1 ++ tr2)
  = certificate_calls tr1 ++ certificate_calls tr2.
Proof.
  induction tr1 as [|e tr1 IH]; [done|].
  destruct e; simpl; by rewrite ?IH.
Qed.

Lemma bound_app tr1 tr2 : bound (tr1 ++ tr2) = bound tr1 ++ bound tr2.
Proof.
  induction tr1 as [|e tr1 IH]; [done|].
  destruct e as [? ? ? ? []| | | | |]; simpl; by rewrite ?IH.
Qed.

Lemma HttpsServer_RemoveCertificate_eq s certificate m o :
  objects m !! s = Some o →
  HttpsServer_RemoveCertificate env s certificate m =
    let ok := remove_certificate_result env (trace m) s certificate in
    Some (ok,
          mkManager (_http_servers m)
            (if ok
             then <[s := with_certificates o
                           (filter (λ c, c ≠ certificate) (certificates o))]>
                    (objects m)
             else objects m)
            (trace m ++ [EvRemoveCertificate s certificate ok])).
Proof.
  intros Ho. unfold HttpsServer_RemoveCertificate, bind, deref.
  rewrite Ho. simpl.
  by destruct (remove_certificate_result _ _ _ _).
Qed.

(** [GetHttpsServer], one equation per case. *)
Lemma GetHttpsServer_miss address m :
  _http_servers m !! address = None →
  GetHttpsServer address m = Some (None, m).
Proof. intros Hreg. unfold GetHttpsServer, bind, find. by rewrite Hreg. Qed.

Lemma GetHttpsServer_https address m s o :
  _http_servers m !! address = Some s →
  objects m !! s = Some o →
  server_type o = Https →
  GetHttpsServer address m = Some (Some s, m).
Proof.
  intros Hreg Ho Hty. unfold GetHttpsServer, bind, find, deref.
  by rewrite Hreg, Ho, Hty.
Qed.

Lemma GetHttpsServer_http address m s o :
  _http_servers m !! address = Some s →
  objects m !! s = Some o →
  server_type o = Http →
  GetHttpsServer address m =
    Some (None,
          mkManager (_http_servers m) (objects m)
            (trace m ++
             [EvLog LogError (GetHttpsServerPreviousIsHttp address)])).
Proof.
  intros Hreg Ho Hty. unfold GetHttpsServer, bind, find, deref.
  by rewrite Hreg, Ho, Hty.
Qed.

(** X1: [GetHttpsServer] answers with a handle exactly when the address
    is registered with an HTTPS listener, and then with that listener;
    it never changes [_http_servers] or a server object, and it writes
    to the log only when it finds an HTTP listener. *)
Theorem GetHttpsServer_lookup address m :
  wf m →
  ∃ r m',
    GetHttpsServer address m = Some (r, m') ∧
    _http_servers m' = _http_servers m ∧
    objects m' = objects m ∧
    (∀ s, r = Some s ↔
          ∃ o, registered m address s ∧ objects m !! s = Some o ∧
               server_type o = Https) ∧
    (trace m' = trace m ∨
     ∃ s o, registered m address s ∧ objects m !! s = Some o ∧
            server_type o = Http ∧
            trace m' =
              trace m ++
              [EvLog LogError (GetHttpsServerPreviousIsHttp address)]).
Proof.
  intros Hwf. unfold registered.
  destruct (_http_servers m !! address) as [s|] eqn:Hreg.
  - destruct (wf_allocated m address s Hwf Hreg) as [o Ho].
    destruct (server_type o) eqn:Hty.
    + rewrite (GetHttpsServer_http _ _ _ _ Hreg Ho Hty).
      eexists _, _. split; [done|]. simpl. split_and!; try done.
      * intros s'. split; [done|].
        intros (o' & [= <-] & Ho' & Hty'). congruence.
      * right. by exists s, o.
    + rewrite (GetHttpsServer_https _ _ _ _ Hreg Ho Hty).
      eexists _, _. split; [done|]. split_and!; try done; [|by left].
      intros s'. split.
      * intros [= <-]. by exists o.
      * by intros (o' & [= <-] & _).
  - rewrite (GetHttpsServer_miss _ _ Hreg).
    eexists _, _. split; [done|]. split_and!; try done; [|by left].
    intros s'. split; [done|]. by intros (o' & ? & _).
Qed.

(** X2: on an address with no entry, or with an HTTP listener,
    [AppendCertificate] and [RemoveCertificate] return [false]; no
    certificate operation reaches any listener, and [_http_servers] and
    the server objects are as before. *)
Theorem certificate_operations_need_https_listener address certificate m :
  wf m →
  (∀ s o, registered m address s → objects m !! s = Some o →
          server_type o = Http) →
  (∃ m',
     AppendCertificate env address certificate m = Some (false, m') ∧
     _http_servers m' = _http_servers m ∧
     objects m' = objects m ∧
     certificate_calls (trace m') = certificate_calls (trace m)) ∧
  (∃ m',
     RemoveCertificate env address certificate m = Some (false, m') ∧
     _http_servers m' = _http_servers m ∧
     objects m' = objects m ∧
     certificate_calls (trace m') = certificate_calls (trace m)).
Proof.
  intros Hwf Hhttp.
  assert (Hget : ∃ m1,
    GetHttpsServer address m = Some (None, m1) ∧
    _http_servers m1 = _http_servers m ∧
    objects m1 = objects m ∧
    certificate_calls (trace m1) = certificate_calls (trace m)).
  { destruct (_http_servers m !! address) as [s|] eqn:Hreg.
    - destruct (wf_allocated m address s Hwf Hreg) as [o Ho].
      rewrite (GetHttpsServer_http _ _ _ _ Hreg Ho (Hhttp s o Hreg Ho)).
      eexists. split; [reflexivity|]. cbn.
      rewrite certificate_calls_app. cbn. by rewrite app_nil_r.
    - rewrite (GetHttpsServer_miss _ _ Hreg). by exists m. }
  destruct Hget as (m1 & Hget & Hreg1 & Hobjs1 & Hcalls1).
  unfold AppendCertificate, RemoveCertificate.
  split; unfold bind at 1; rewrite Hget;
    (eexists; split; [reflexivity|]); cbn;
    rewrite certificate_calls_app; cbn; by rewrite app_nil_r.
Qed.

(** X3: on an address registered with an HTTPS listener,
    [AppendCertificate] forwards the certificate to that listener once
    and returns whether it was accepted; a refusal is logged and leaves
    the server objects as they were; [_http_servers] is unchanged
    either way. *)
Theorem AppendCertificate_forwards address certificate m s o :
  registered m address s →
  objects m !! s = Some o →
  server_type o = Https →
  ∃ ok m',
    ok = append_certificate_result env (trace m) s certificate ∧
    AppendCertificate env address certificate m = Some (ok, m') ∧
    _http_servers m' = _http_servers m ∧
    trace m' =
      trace m ++
      EvAppendCertificate s certificate ok ::
      (if ok then []
       else [EvLog LogError (CouldNotSetCertificateTo address)]) ∧
    (ok = false → objects m' = objects m) ∧
    (ok = true →
     objects m' =
       <[s := with_certificates o (certificates o ++ [certificate])]>
         (objects m)).
Proof.
  intros Hreg Ho Hty. unfold AppendCertificate. unfold bind at 1.
  rewrite (GetHttpsServer_https _ _ _ _ Hreg Ho Hty).
  unfold bind at 1.
  rewrite (HttpsServer_AppendCertificate_eq _ _ _ _ _ Ho). cbv zeta.
  destruct (append_certificate_result _ _ _ _); cbn.
  - eexists true, _. split_and!; try done.
  - eexists false, _. split_and!; try done.
    cbn. by rewrite <- app_assoc.
Qed.

(** X4: on an address registered with an HTTPS listener,
    [RemoveCertificate] forwards the certificate to that listener once
    and returns whether the removal was accepted; a refusal is logged
    and leaves the server objects as they were; [_http_servers] is
    unchanged either way. *)
Theorem RemoveCertificate_forwards address certificate m s o :
  registered m address s →
  objects m !! s = Some o →
  server_type o = Https →
  ∃ ok m',
    ok = remove_certificate_result env (trace m) s certificate ∧
    RemoveCertificate env address certificate m = Some (ok, m') ∧
    _http_servers m' = _http_servers m ∧
    trace m' =
      trace m ++
      EvRemoveCertificate s certificate ok ::
      (if ok then []
       else [EvLog LogError (CouldNotSetCertificateTo address)]) ∧
    (ok = false → objects m' = objects m) ∧
    (ok = true →
     objects m' =
       <[s := with_certificates o
                (filter (λ c, c ≠ certificate) (certificates o))]>
         (objects m)).
Proof.
  intros Hreg Ho Hty. unfold RemoveCertificate. unfold bind at 1.
  rewrite (GetHttpsServer_https _ _ _ _ Hreg Ho Hty).
  unfold bind at 1.
  rewrite (HttpsServer_RemoveCertificate_eq _ _ _ _ Ho). cbv zeta.
  destruct (remove_certificate_result _ _ _ _); cbn.
  - eexists true, _. split_and!; try done.
  - eexists false, _. split_and!; try done.
    cbn. by rewrite <- app_assoc.
Qed.

End Lookup.

Section Creation.

Variable env : Environment.

Implicit Types (m : HttpServerManager) (address : SocketAddress).
Implicit Types (s : Handle) (o : ServerObject) (tr : list Event).

(** X5: [CreateHttpsServer] on an address registered with an HTTP
    listener returns null; it writes the error line of the type conflict,
    invokes no [Start], and changes neither [_http_servers] nor any
    server object. *)
Theorem CreateHttpsServer_on_http_address
    name address force worker_count m s o :
  registered m address s →
  objects m !! s = Some o →
  server_type o = Http →
  ∃ m',
    CreateHttpsServer env name address force worker_count m
      = Some (None, m') ∧
    _http_servers m' = _http_servers m ∧
    objects m' = objects m ∧
    trace m' =
      trace m ++ [EvLog LogError (CannotReusePreviousIsHttp address)].
Proof.
  intros Hreg Ho Hty.
  rewrite (CreateHttpsServer_hit_http _ _ _ _ _ _ _ _ Hreg Ho Hty).
  by eexists.
Qed.

(** X6: [CreateHttpsServer] on an address registered with an HTTPS
    listener returns that listener whatever the worker count asked for;
    [_http_servers] and the listener, its HTTP/2 flag included, stay as
    they were.  The log grows by one warning when the flag asked for
    differs from the listener's, a different one for each direction,
    and by nothing when they agree. *)
Theorem CreateHttpsServer_reuse_flag_warning
    name address force worker_count m s o :
  registered m address s →
  objects m !! s = Some o →
  server_type o = Https →
  ∃ m',
    CreateHttpsServer env name address force worker_count m
      = Some (Some s, m') ∧
    _http_servers m' = _http_servers m ∧
    objects m' = objects m ∧
    (IsHttp2Enabled o = (http2_config env && negb force) →
     trace m' = trace m) ∧
    (IsHttp2Enabled o = true → http2_config env && negb force = false →
     trace m' =
       trace m ++ [EvLog LogWarning (Http2PortUsedAsHttp11 address)]) ∧
    (IsHttp2Enabled o = false → http2_config env && negb force = true →
     trace m' =
       trace m ++ [EvLog LogWarning (Http11PortUsedAsHttp2 address)]).
Proof.
  intros Hreg Ho Hty.
  rewrite (CreateHttpsServer_hit_https _ _ _ _ _ _ _ _ Hreg Ho Hty).
  cbv zeta. eexists. split; [reflexivity|]. cbn.
  split_and!; try done.
  - intros ->. destruct (http2_config env && negb force); cbn;
      by rewrite app_nil_r.
  - by intros -> ->.
  - by intros -> ->.
Qed.

(** X7: [CreateHttpServer] on an address registered with an HTTP
    listener returns that listener, invokes no [Start], and leaves
    [_http_servers] and the listener as they were.  It is silent when
    the worker count is the sentinel, when the listener has no port, or
    when the port has the count asked for; otherwise it writes the two
    warnings, naming the count in use. *)
Theorem CreateHttpServer_reuse_warnings name address worker_count m s o :
  registered m address s →
  objects m !! s = Some o →
  server_type o = Http →
  ∃ m',
    CreateHttpServer env name address worker_count m = Some (Some s, m') ∧
    _http_servers m' = _http_servers m ∧
    objects m' = objects m ∧
    starts (trace m') = starts (trace m) ∧
    (worker_count = HTTP_SERVER_USE_DEFAULT_COUNT env ∨
     physical_port o = None ∨
     physical_port o = Some worker_count →
     trace m' = trace m) ∧
    (∀ w, worker_count ≠ HTTP_SERVER_USE_DEFAULT_COUNT env →
          physical_port o = Some w →
          w ≠ worker_count →
          trace m' =
            trace m ++
            [EvLog LogWarning (WorkerCountDiffers w worker_count);
             EvLog LogWarning (FirstInitializedCountUsed w)]).
Proof.
  intros Hreg Ho Hty.
  rewrite (CreateHttpServer_hit_http _ _ _ _ _ _ _ Hreg Ho Hty).
  eexists. split; [reflexivity|]. cbn.
  split_and!; try done.
  - rewrite starts_app, (proj1 (worker_count_warnings_quiet _ _ _)).
    by rewrite app_nil_r.
  - unfold worker_count_warnings. intros [->|[->| ->]].
    + by rewrite Z.eqb_refl, app_nil_r.
    + destruct (negb _); by rewrite app_nil_r.
    + rewrite Z.eqb_refl. destruct (negb _); by rewrite app_nil_r.
  - unfold worker_count_warnings. intros w Hsentinel -> Hw.
    apply Z.eqb_neq in Hsentinel. apply Z.eqb_neq in Hw.
    by rewrite Hsentinel, Hw.
Qed.

(** X8: on a well-formed manager [CreateHttpServer] and
    [CreateHttpsServer] return, and whatever the outcome they change
    [_http_servers] at most by filling the free slot of the address
    asked for, and they leave every existing server object as it was. *)
Theorem creation_frame name address force worker_count m :
  wf m →
  (∃ r m',
     CreateHttpServer env name address worker_count m = Some (r, m') ∧
     registers_at_most address m m' ∧
     objects m `prefix_of` objects m') ∧
  (∃ r m',
     CreateHttpsServer env name address force worker_count m
       = Some (r, m') ∧
     registers_at_most address m m' ∧
     objects m `prefix_of` objects m').
Proof.
  intros Hwf. unfold registers_at_most.
  destruct (_http_servers m !! address) as [s|] eqn:Hreg.
  - destruct (wf_allocated m address s Hwf Hreg) as [o Ho].
    destruct (server_type o) eqn:Hty.
    + rewrite (CreateHttpServer_hit_http _ _ _ _ _ _ _ Hreg Ho Hty).
      rewrite (CreateHttpsServer_hit_http _ _ _ _ _ _ _ _ Hreg Ho Hty).
      split; eexists _, _; (split; [reflexivity|]); cbn; by split; [left|].
    + rewrite (CreateHttpServer_hit_https _ _ _ _ _ _ _ Hreg Ho Hty).
      rewrite (CreateHttpsServer_hit_https _ _ _ _ _ _ _ _ Hreg Ho Hty).
      split; eexists _, _; (split; [reflexivity|]); cbn; by split; [left|].
  - rewrite (CreateHttpServer_miss _ _ _ _ _ Hreg).
    rewrite (CreateHttpsServer_miss _ _ _ _ _ _ Hreg). cbv zeta.
    split; destruct (start_result _ _ _ _ _ _);
      eexists _, _; (split; [reflexivity|]); cbn;
      (split; [|by apply prefix_app_r]);
      first [ by left | right; split; [done|]; by eexists ].
Qed.

(** X9: when the overload with a certificate finds the address free,
    gets its listener started and the certificate accepted, it returns
    the new handle, registered at the address, with exactly this
    certificate installed; it invoked [Start] once and forwarded the
    certificate once. *)
Theorem CreateHttpsServer_certificate_creates
    name address certificate force worker_count m :
  let s := length (objects m) in
  let http2 := http2_config env && negb force in
  _http_servers m !! address = None →
  start_result env (trace m) Https address worker_count http2 = true →
  append_certificate_result env
    (trace m ++ [EvStart s address worker_count http2 true])
    s certificate = true →
  ∃ m',
    CreateHttpsServer_certificate env name address certificate force
      worker_count m = Some (Some s, m') ∧
    _http_servers m' = <[address := s]> (_http_servers m) ∧
    objects m' =
      objects m ++
      [with_certificates (started env (fresh Https name) worker_count http2)
         [certificate]] ∧
    trace m' =
      trace m ++
      [EvStart s address worker_count http2 true;
       EvAppendCertificate s certificate true].
Proof.
  intros s http2 Hfree Hstart Hcert.
  unfold CreateHttpsServer_certificate. unfold bind at 1.
  rewrite (CreateHttpsServer_miss _ _ _ _ _ _ Hfree). cbv zeta.
  fold s http2. rewrite Hstart. unfold bind at 1.
  erewrite HttpsServer_AppendCertificate_eq by apply lookup_fresh.
  cbn [trace]. cbv zeta. rewrite Hcert. cbn.
  eexists. split; [reflexivity|]. cbn.
  split_and!; try done.
  - unfold s. by rewrite insert_fresh.
  - by rewrite <- app_assoc.
Qed.

(** X10: on an address registered with an HTTPS listener, the overload
    with a certificate starts nothing and forwards the certificate to
    the existing listener once; it returns that listener when the
    certificate is accepted and null when it is refused, and a refusal
    leaves [_http_servers] and the server objects as they were. *)
Theorem CreateHttpsServer_certificate_reuse
    name address certificate force worker_count m s o :
  registered m address s →
  objects m !! s = Some o →
  server_type o = Https →
  ∃ ok m',
    CreateHttpsServer_certificate env name address certificate force
      worker_count m = Some (if ok : bool then Some s else None, m') ∧
    _http_servers m' = _http_servers m ∧
    starts (trace m') = starts (trace m) ∧
    certificate_calls (trace m') = certificate_calls (trace m) ++ [s] ∧
    (ok = false → objects m' = objects m) ∧
    (ok = true →
     objects m' =
       <[s := with_certificates o (certificates o ++ [certificate])]>
         (objects m)).
Proof.
  intros Hreg Ho Hty.
  unfold CreateHttpsServer_certificate. unfold bind at 1.
  rewrite (CreateHttpsServer_hit_https _ _ _ _ _ _ _ _ Hreg Ho Hty).
  cbv zeta. unfold bind at 1.
  erewrite HttpsServer_AppendCertificate_eq by exact Ho.
  cbv zeta. cbn [trace _http_servers objects].
  set (tr1 := trace m ++ _).
  assert (Hstarts : starts tr1 = starts (trace m)).
  { unfold tr1. rewrite starts_app.
    destruct (_ && _); [|destruct (_ && _)]; cbn; by rewrite app_nil_r. }
  assert (Hcalls : certificate_calls tr1 = certificate_calls (trace m)).
  { unfold tr1. rewrite certificate_calls_app.
    destruct (_ && _); [|destruct (_ && _)]; cbn; by rewrite app_nil_r. }
  destruct (append_certificate_result env tr1 s certificate); cbn.
  - eexists true, _. split; [reflexivity|]. cbn.
    rewrite starts_app, certificate_calls_app, Hstarts, Hcalls. cbn.
    rewrite app_nil_r. by split_and!.
  - eexists false, _. split; [reflexivity|]. cbn.
    rewrite !starts_app, !certificate_calls_app, Hstarts, Hcalls. cbn.
    rewrite !app_nil_r. by split_and!.
Qed.

(** X11: a released listener is handed out again.  After
    [ReleaseServer] on a registered handle, a creation request of the
    listener's own kind on its address returns the same handle and
    invokes no [Start]: the only [Stop] and no [Start] were added to
    the trace. *)
Theorem release_then_create name address force worker_count m s o :
  registered m address s →
  objects m !! s = Some o →
  ∃ b m1,
    ReleaseServer env (Some s) m = Some (b, m1) ∧
    (server_type o = Http →
     ∃ m2,
       CreateHttpServer env name address worker_count m1
         = Some (Some s, m2) ∧
       starts (trace m2) = starts (trace m) ∧
       stops (trace m2) = stops (trace m) ++ [s]) ∧
    (server_type o = Https →
     ∃ m2,
       CreateHttpsServer env name address force worker_count m1
         = Some (Some s, m2) ∧
       starts (trace m2) = starts (trace m) ∧
       stops (trace m2) = stops (trace m) ++ [s]).
Proof.
  intros Hreg Ho. simpl. rewrite (HttpServer_Stop_eq _ _ _ _ Ho). cbv zeta.
  set (m1 := mkManager _ _ _). exists (stop_result env (trace m) s), m1.
  split; [done|].
  assert (Hlt : (s < length (objects m))%nat) by by eapply lookup_lt_Some.
  assert (Ho1 : ∃ o1, objects m1 !! s = Some o1 ∧
                      server_type o1 = server_type o).
  { unfold m1. cbn. destruct (stop_result _ _ _).
    - exists (stopped o). by rewrite list_lookup_insert_eq.
    - by exists o. }
  destruct Ho1 as (o1 & Ho1 & Hty1).
  assert (Hreg1 : _http_servers m1 !! address = Some s) by done.
  split; intros Hty; rewrite Hty in Hty1.
  - rewrite (CreateHttpServer_hit_http _ _ _ _ _ _ _ Hreg1 Ho1 Hty1).
    eexists. split; [reflexivity|]. cbn.
    rewrite !starts_app, !stops_app.
    destruct (worker_count_warnings_quiet env o1 worker_count) as [-> ->].
    cbn. by rewrite !app_nil_r.
  - rewrite (CreateHttpsServer_hit_https _ _ _ _ _ _ _ _ Hreg1 Ho1 Hty1).
    cbv zeta. eexists. split; [reflexivity|]. cbn.
    rewrite !starts_app, !stops_app.
    destruct (_ && _); [|destruct (_ && _)]; cbn; by rewrite !app_nil_r.
Qed.

End Creation.

Section Invariant.

Variable env : Environment.

Implicit Types (m : HttpServerManager) (address : SocketAddress).
Implicit Types (s : Handle) (o : ServerObject) (tr : list Event).

(** ** One creation, as a step *)

Lemma worker_count_warnings_silent o worker_count :
  callbacks (worker_count_warnings env o worker_count) = [] ∧
  bound (worker_count_warnings env o worker_count) = [].
Proof.
  unfold worker_count_warnings.
  destruct (negb _); [destruct (physical_port o) as [w|];
                        [destruct (negb _)|]|]; done.
Qed.

Lemma CreateHttpServer_step name worker_count address m r m' :
  wf m →
  CreateHttpServer env name address worker_count m = Some (r, m') →
  creation_step address m m'.
Proof.
  intros Hwf. unfold creation_step.
  destruct (_http_servers m !! address) as [s|] eqn:Hreg.
  - destruct (wf_allocated m address s Hwf Hreg) as [o Ho].
    destruct (server_type o) eqn:Hty.
    + rewrite (CreateHttpServer_hit_http _ _ _ _ _ _ _ Hreg Ho Hty).
      intros [= <- <-]. eexists. split; [reflexivity|].
      destruct (worker_count_warnings_silent o worker_count) as [-> ->].
      split; [done|]. by left.
    + rewrite (CreateHttpServer_hit_https _ _ _ _ _ _ _ Hreg Ho Hty).
      intros [= <- <-]. eexists. split; [reflexivity|].
      split; [done|]. by left.
  - rewrite (CreateHttpServer_miss _ _ _ _ _ Hreg). cbv zeta.
    destruct (start_result _ _ _ _ _ _); intros [= <- <-];
      (eexists; split; [reflexivity|]); (split; [done|]).
    + right. split; [done|]. by eexists.
    + by left.
Qed.

Lemma CreateHttpsServer_step name force worker_count address m r m' :
  wf m →
  CreateHttpsServer env name address force worker_count m = Some (r, m') →
  creation_step address m m'.
Proof.
  intros Hwf. unfold creation_step.
  destruct (_http_servers m !! address) as [s|] eqn:Hreg.
  - destruct (wf_allocated m address s Hwf Hreg) as [o Ho].
    destruct (server_type o) eqn:Hty.
    + rewrite (CreateHttpsServer_hit_http _ _ _ _ _ _ _ _ Hreg Ho Hty).
      intros [= <- <-]. eexists. split; [reflexivity|].
      split; [done|]. by left.
    + rewrite (CreateHttpsServer_hit_https _ _ _ _ _ _ _ _ Hreg Ho Hty).
      cbv zeta. intros [= <- <-]. eexists. split; [reflexivity|].
      destruct (_ && _); [|destruct (_ && _)];
        (split; [done|]); by left.
  - rewrite (CreateHttpsServer_miss _ _ _ _ _ _ Hreg). cbv zeta.
    destruct (start_result _ _ _ _ _ _); intros [= <- <-];
      (eexists; split; [reflexivity|]); (split; [done|]).
    + right. split; [done|]. by eexists.
    + by left.
Qed.

Lemma creation_step_after address m m1 m' evs :
  creation_step address m m1 →
  _http_servers m' = _http_servers m1 →
  trace m' = trace m1 ++ evs →
  callbacks evs = [] →
  bound evs = [] →
  creation_step address m m'.
Proof.
  intros (evs1 & Htr & Hcb & Hreg) Hreg' Htr' Hcb' Hbound'.
  exists (evs1 ++ evs). rewrite Htr', Htr, <- app_assoc.
  split; [done|]. rewrite callbacks_app, Hcb, Hcb'. split; [done|].
  rewrite bound_app, Hbound', app_nil_r, Hreg'. done.
Qed.

Lemma CreateHttpsServer_certificate_step
    name certificate force worker_count address m r m' :
  wf m →
  CreateHttpsServer_certificate env name address certificate force
    worker_count m = Some (r, m') →
  creation_step address m m'.
Proof.
  intros Hwf Hrun. unfold CreateHttpsServer_certificate in Hrun.
  apply bind_Some in Hrun as (https_server & m1 & Hcreate & Hrun).
  pose proof (CreateHttpsServer_step _ _ _ _ _ _ _ Hwf Hcreate) as Hstep.
  destruct https_server as [s|]; [|by injection Hrun as <- <-].
  destruct (CreateHttpsServer_good env name force worker_count address m Hwf)
    as (r2 & m2 & Hcreate2 & Hwf1 & _ & _ & Hreg).
  rewrite Hcreate in Hcreate2. injection Hcreate2 as <- <-.
  destruct (wf_allocated m1 address s Hwf1 (Hreg s eq_refl)) as [o Ho].
  apply bind_Some in Hrun as (ok & m3 & Happend & Hrun).
  rewrite (HttpsServer_AppendCertificate_eq _ _ _ _ _ Ho) in Happend.
  cbv zeta in Happend. injection Happend as <- <-.
  destruct (append_certificate_result _ _ _ _); cbn in Hrun;
    injection Hrun as <- <-.
  - by apply (creation_step_after address m m1 _
                [EvAppendCertificate s certificate true]).
  - apply (creation_step_after address m m1 _
             [EvAppendCertificate s certificate false;
              EvLog LogError CouldNotSetCertificate]); try done.
    cbn. by rewrite <- app_assoc.
Qed.

(** ** The binding invariant *)

Lemma single_bind_quiet m m' :
  _http_servers m' = _http_servers m →
  bound (trace m') = bound (trace m) →
  single_bind m → single_bind m'.
Proof. unfold single_bind. by intros -> ->. Qed.

Lemma single_bind_step address m m' :
  creation_step address m m' → single_bind m → single_bind m'.
Proof.
  intros (evs & Htr & _ & [[Hreg Hb]|(Hfree & s & Hreg & Hb)]) [Hnd Hiff].
  - apply (single_bind_quiet m); [done| |done].
    by rewrite Htr, bound_app, Hb, app_nil_r.
  - unfold single_bind. rewrite Htr, bound_app, Hb, Hreg.
    assert (Hnew : address ∉ bound (trace m)).
    { rewrite Hiff, Hfree. by intros [? ?]. }
    split.
    + apply NoDup_app. split; [done|]. split; [|apply NoDup_singleton].
      intros a Ha. rewrite list_elem_of_singleton. by intros ->.
    + intros a. rewrite elem_of_app, list_elem_of_singleton, Hiff.
      rewrite lookup_insert_is_Some.
      destruct (decide (address = a)); intuition congruence.
Qed.

Lemma HttpServer_Stop_frame s m b m' :
  HttpServer_Stop env s m = Some (b, m') →
  _http_servers m' = _http_servers m ∧
  length (objects m') = length (objects m) ∧
  bound (trace m') = bound (trace m) ∧
  callbacks (trace m') = callbacks (trace m).
Proof.
  destruct (objects m !! s) as [o|] eqn:Ho.
  - rewrite (HttpServer_Stop_eq _ _ _ _ Ho). cbv zeta.
    intros [= <- <-]. cbn. rewrite bound_app, callbacks_app. cbn.
    rewrite !app_nil_r. split_and!; try done.
    destruct (stop_result _ _ _); [apply length_insert|done].
  - unfold HttpServer_Stop, bind, deref. by rewrite Ho.
Qed.

Lemma ReleaseServers_frame server_list : ∀ m m',
  ReleaseServers env server_list m = Some (tt, m') →
  _http_servers m' = _http_servers m ∧
  length (objects m') = length (objects m) ∧
  bound (trace m') = bound (trace m) ∧
  callbacks (trace m') = callbacks (trace m).
Proof.
  induction server_list as [|s rest IH]; intros m m' Hrun.
  - by injection Hrun as <-.
  - cbn [ReleaseServers ReleaseServer] in Hrun.
    apply bind_Some in Hrun as (b & m1 & Hstop & Hrun).
    apply IH in Hrun as (-> & -> & -> & ->).
    by apply HttpServer_Stop_frame in Hstop.
Qed.

Lemma wf_frame m m' :
  _http_servers m' = _http_servers m →
  length (objects m') = length (objects m) →
  wf m → wf m'.
Proof. unfold wf. by intros -> ->. Qed.

(** ** Batches, as sequences of steps *)

Section BatchSteps.

Variable http_server_name : string.
Variable port : Z.
Variable f : SocketAddress → M (option Handle).
Variable callback : bool.
Hypothesis f_good : good_creation f.
Hypothesis f_step :
  ∀ address m r m', wf m → f address m = Some (r, m') →
                    creation_step address m m'.

Lemma f_run address m r m' :
  wf m → f address m = Some (r, m') →
  wf m' ∧ creation_step address m m'.
Proof.
  intros Hwf Hf. split; [|by eapply f_step].
  destruct (f_good address m Hwf) as (r2 & m2 & Hf2 & Hwf2 & _).
  rewrite Hf in Hf2. by injection Hf2 as <- <-.
Qed.

Lemma create_on_addresses_steps address_list : ∀ server_list m r m',
  wf m →
  create_on_addresses env http_server_name f callback
    address_list server_list m = Some (r, m') →
  wf m' ∧
  (single_bind m → single_bind m') ∧
  match r with
  | Some server_list' =>
      ∃ created,
        server_list' = server_list ++ created ∧
        length created = length address_list ∧
        callbacks (trace m') =
          callbacks (trace m) ++
          (if callback then zip address_list created else [])
  | None => True
  end.
Proof.
  induction address_list as [|address rest IH];
    intros server_list m r m' Hwf Hrun.
  - injection Hrun as <- <-. split_and!; try done.
    exists []. destruct callback; cbn; by rewrite !app_nil_r.
  - cbn [create_on_addresses] in Hrun.
    apply bind_Some in Hrun as ([] & m0 & Hlog & Hrun).
    injection Hlog as <-.
    apply bind_Some in Hrun as (server & m1 & Hf & Hrun).
    apply f_run in Hf as [Hwf1 Hstep]; [|by destruct m].
    destruct Hstep as (evs & Htr1 & Hcb1 & Hreg1).
    cbn [trace _http_servers] in Htr1, Hreg1.
    assert (Hbind1 : single_bind m → single_bind m1).
    { apply (single_bind_step address). exists (EvLog LogDebug
        (AttemptingToCreate http_server_name address) :: evs).
      rewrite Htr1, <- app_assoc. split; [done|]. split; [done|].
      destruct Hreg1 as [[? ?]|(? & s & ? & ?)]; [by left|right].
      split; [done|]. by exists s. }
    assert (Hcbs1 : callbacks (trace m1) = callbacks (trace m)).
    { rewrite Htr1, !callbacks_app, Hcb1. cbn. by rewrite !app_nil_r. }
    destruct server as [s|].
    + apply bind_Some in Hrun as ([] & m3 & Hcb & Hrun).
      assert (Hm3 : _http_servers m3 = _http_servers m1 ∧
                    objects m3 = objects m1 ∧
                    trace m3 =
                      trace m1 ++
                      if callback then [EvCallback address s] else []).
      { destruct callback; injection Hcb as <-; cbn;
          by rewrite ?app_nil_r. }
      destruct Hm3 as (Hreg3 & Hobjs3 & Htr3).
      apply IH in Hrun as (Hwf' & Hbind' & Hres).
      2: { apply (wf_frame m1); [done|by rewrite Hobjs3|done]. }
      split; [done|]. split.
      * intros Hb. apply Hbind'. apply (single_bind_quiet m1); [done| |auto].
        rewrite Htr3, bound_app. destruct callback; cbn;
          by rewrite app_nil_r.
      * destruct r as [server_list'|]; [|done].
        destruct Hres as (created & -> & Hlen & Hcbs).
        exists (s :: created). rewrite <- app_assoc. split; [done|].
        split; [cbn; by rewrite Hlen|].
        rewrite Hcbs, Htr3, callbacks_app, Hcbs1.
        destruct callback; cbn; by rewrite <- ?app_assoc, ?app_nil_r.
    + apply bind_Some in Hrun as ([] & m4 & Hlog & Hrun).
      injection Hlog as <-.
      apply bind_Some in Hrun as ([] & m5 & Hrel & Hrun).
      injection Hrun as <- <-.
      apply ReleaseServers_frame in Hrel as (Hreg5 & Hlen5 & Hb5 & _).
      cbn in Hreg5, Hlen5, Hb5. split_and!; try done.
      * apply (wf_frame m1); done.
      * intros Hb. apply (single_bind_quiet m1); [done| |auto].
        rewrite Hb5, bound_app. cbn. by rewrite app_nil_r.
Qed.

Lemma create_on_ips_steps server_ip_list : ∀ server_list m r m',
  wf m →
  create_on_ips env http_server_name port f callback
    server_ip_list server_list m = Some (r, m') →
  wf m' ∧
  (single_bind m → single_bind m') ∧
  match r with
  | Some server_list' =>
      ∃ address_list created,
        resolve_all env server_ip_list port = Some address_list ∧
        server_list' = server_list ++ created ∧
        length created = length address_list ∧
        callbacks (trace m') =
          callbacks (trace m) ++
          (if callback then zip address_list created else [])
  | None => True
  end.
Proof.
  induction server_ip_list as [|server_ip rest IH];
    intros server_list m r m' Hwf Hrun.
  - injection Hrun as <- <-. split_and!; try done.
    exists [], []. destruct callback; cbn; by rewrite !app_nil_r.
  - cbn [create_on_ips resolve_all] in *.
    destruct (SocketAddress_Create env server_ip port) as [address_list|].
    + apply bind_Some in Hrun as (r1 & m1 & Hinner & Hrun).
      apply create_on_addresses_steps in Hinner as (Hwf1 & Hbind1 & Hres1);
        [|done].
      destruct r1 as [server_list1|].
      * apply IH in Hrun as (Hwf' & Hbind' & Hres'); [|done].
        split; [done|]. split; [auto|].
        destruct r as [server_list'|]; [|done].
        destruct Hres1 as (created1 & -> & Hlen1 & Hcbs1).
        destruct Hres' as (l & created & -> & -> & Hlen & Hcbs).
        exists (address_list ++ l), (created1 ++ created).
        rewrite <- app_assoc, !length_app, Hlen1, Hlen.
        split_and!; try done.
        rewrite Hcbs, Hcbs1, <- app_assoc.
        destruct callback; [|done].
        by rewrite zip_with_app.
      * injection Hrun as <- <-. by split_and!.
    + apply bind_Some in Hrun as ([] & m1 & Hlog & Hrun).
      injection Hlog as <-. injection Hrun as <- <-.
      split_and!; try done.
      intros Hb. apply (single_bind_quiet m); [done| |done].
      cbn. rewrite bound_app. cbn. by rewrite app_nil_r.
Qed.

Lemma CreateServers_steps http_server_list server_ip_list m b
    http_server_list' m' :
  wf m →
  CreateServers env http_server_name port f callback
    http_server_list server_ip_list m
    = Some ((b, http_server_list'), m') →
  wf m' ∧
  (single_bind m → single_bind m') ∧
  (b = true →
   ∃ address_list created,
     resolve_all env server_ip_list port = Some address_list ∧
     http_server_list' = http_server_list ++ created ∧
     length created = length address_list ∧
     callbacks (trace m') =
       callbacks (trace m) ++
       (if callback then zip address_list created else [])).
Proof.
  intros Hwf Hrun. unfold CreateServers in Hrun.
  apply bind_Some in Hrun as (r & m1 & Hloop & Hrun).
  apply create_on_ips_steps in Hloop as (Hwf1 & Hbind1 & Hres); [|done].
  destruct r as [server_list|]; injection Hrun as <- <- <-.
  - split; [done|]. split; [done|]. intros _.
    destruct Hres as (l & created & Hl & Hc & Hlen & Hcbs).
    cbn in Hc. subst server_list. by exists l, created.
  - by split_and!.
Qed.

End BatchSteps.

End Invariant.

Section System.

Variable env : Environment.

Implicit Types (m : HttpServerManager) (address : SocketAddress).
Implicit Types (s : Handle) (o : ServerObject) (tr : list Event).

(** ** Batches *)

(** X12: on a well-formed manager both batch functions return, and
    whether the batch succeeds or fails every entry that was in
    [_http_servers] before is still there with the same handle: a
    rolled-back batch unregisters nothing. *)
Theorem batch_keeps_entries
    http_server_list name server_ip_list port certificate force callback
    worker_count m :
  wf m →
  (∃ b http_server_list' m',
     CreateHttpServers env http_server_list name server_ip_list port
       callback worker_count m = Some ((b, http_server_list'), m') ∧
     _http_servers m ⊆ _http_servers m') ∧
  (∃ b http_server_list' m',
     CreateHttpsServers env http_server_list name server_ip_list port
       certificate force callback worker_count m
       = Some ((b, http_server_list'), m') ∧
     _http_servers m ⊆ _http_servers m').
Proof.
  intros Hwf. split.
  - destruct (CreateServers_spec env "HTTP" port _ callback
                (CreateHttpServer_good env name worker_count)
                http_server_list server_ip_list m Hwf)
      as (b & l & m' & Hrun & _ & Hsub & _).
    by exists b, l, m'.
  - destruct (CreateServers_spec env "HTTPS" port _ callback
                (CreateHttpsServer_certificate_good env name certificate
                   force worker_count)
                http_server_list server_ip_list m Hwf)
      as (b & l & m' & Hrun & _ & Hsub & _).
    by exists b, l, m'.
Qed.


Lemma batch_steps
    http_server_list name server_ip_list port certificate force callback
    worker_count m b http_server_list' m' :
  wf m →
  CreateHttpServers env http_server_list name server_ip_list port
    callback worker_count m = Some ((b, http_server_list'), m') ∨
  CreateHttpsServers env http_server_list name server_ip_list port
    certificate force callback worker_count m
    = Some ((b, http_server_list'), m') →
  wf m' ∧
  (single_bind m → single_bind m') ∧
  (b = true →
   ∃ address_list created,
     resolve_all env server_ip_list port = Some address_list ∧
     http_server_list' = http_server_list ++ created ∧
     length created = length address_list ∧
     callbacks (trace m') =
       callbacks (trace m) ++
       (if callback then zip address_list created else [])).
Proof.
  intros Hwf [Hrun|Hrun].
  - eapply (CreateServers_steps env "HTTP" port _ callback
              (CreateHttpServer_good env name worker_count));
      [|exact Hwf|exact Hrun].
    intros address m0 r m0'. apply CreateHttpServer_step.
  - eapply (CreateServers_steps env "HTTPS" port _ callback
              (CreateHttpsServer_certificate_good env name certificate
                 force worker_count));
      [|exact Hwf|exact Hrun].
    intros address m0 r m0'. apply CreateHttpsServer_certificate_step.
Qed.

(** X14: a batch that returns [true] has invoked the caller's hook,
    when there is one, exactly once per resolved address, in processing
    order, each time with the address and the handle appended for it;
    with a null hook nothing was invoked. *)
Theorem batch_callbacks
    http_server_list name server_ip_list port certificate force callback
    worker_count m http_server_list' m' :
  wf m →
  CreateHttpServers env http_server_list name server_ip_list port
    callback worker_count m = Some ((true, http_server_list'), m') ∨
  CreateHttpsServers env http_server_list name server_ip_list port
    certificate force callback worker_count m
    = Some ((true, http_server_list'), m') →
  ∃ address_list created,
    resolve_all env server_ip_list port = Some address_list ∧
    http_server_list' = http_server_list ++ created ∧
    length created = length address_list ∧
    callbacks (trace m') =
      callbacks (trace m) ++
      (if callback then zip address_list created else []).
Proof.
  intros Hwf Hrun.
  by apply (batch_steps _ _ _ _ _ _ _ _ _ _ _ _ Hwf Hrun).
Qed.

(** X15: in a batch that returns [true], resolved addresses that are
    equal get the same handle: a second bind host that resolves to an
    address already processed shares the listener of the first. *)
Theorem batch_shares_listener
    http_server_list name server_ip_list port certificate force callback
    worker_count m http_server_list' m' :
  wf m →
  CreateHttpServers env http_server_list name server_ip_list port
    callback worker_count m = Some ((true, http_server_list'), m') ∨
  CreateHttpsServers env http_server_list name server_ip_list port
    certificate force callback worker_count m
    = Some ((true, http_server_list'), m') →
  ∃ address_list created,
    resolve_all env server_ip_list port = Some address_list ∧
    http_server_list' = http_server_list ++ created ∧
    ∀ i j address,
      address_list !! i = Some address →
      address_list !! j = Some address →
      is_Some (created !! i) ∧ created !! i = created !! j.
Proof.
  intros Hwf Hrun.
  assert (Hspec : ∃ address_list created,
    resolve_all env server_ip_list port = Some address_list ∧
    http_server_list' = http_server_list ++ created ∧
    Forall2 (registered m') address_list created).
  { destruct Hrun as [Hrun|Hrun].
    - destruct (CreateServers_spec env "HTTP" port _ callback
                  (CreateHttpServer_good env name worker_count)
                  http_server_list server_ip_list m Hwf)
        as (b & l & m2 & Hrun2 & _ & _ & Hres).
      unfold CreateHttpServers in Hrun. rewrite Hrun in Hrun2.
      by injection Hrun2 as <- <- <-.
    - destruct (CreateServers_spec env "HTTPS" port _ callback
                  (CreateHttpsServer_certificate_good env name certificate
                     force worker_count)
                  http_server_list server_ip_list m Hwf)
        as (b & l & m2 & Hrun2 & _ & _ & Hres).
      unfold CreateHttpsServers in Hrun. rewrite Hrun in Hrun2.
      by injection Hrun2 as <- <- <-. }
  destruct Hspec as (address_list & created & Hresolve & Hlist & Hall).
  exists address_list, created. split; [done|]. split; [done|].
  intros i j address Hi Hj.
  destruct (Forall2_lookup_l _ _ _ _ _ Hall Hi) as (si & Hsi & Hri).
  destruct (Forall2_lookup_l _ _ _ _ _ Hall Hj) as (sj & Hsj & Hrj).
  unfold registered in *. rewrite Hsi, Hsj. split; [done|]. congruence.
Qed.

(** ** Every reachable state *)

Lemma GetHttpsServer_frame address m :
  wf m →
  ∃ r m',
    GetHttpsServer address m = Some (r, m') ∧
    _http_servers m' = _http_servers m ∧
    objects m' = objects m ∧
    bound (trace m') = bound (trace m) ∧
    ∀ s, r = Some s → is_Some (objects m !! s).
Proof.
  intros Hwf.
  destruct (_http_servers m !! address) as [s|] eqn:Hreg.
  - destruct (wf_allocated m address s Hwf Hreg) as [o Ho].
    destruct (server_type o) eqn:Hty.
    + rewrite (GetHttpsServer_http _ _ _ _ Hreg Ho Hty).
      eexists _, _. split; [done|]. cbn. rewrite bound_app. cbn.
      rewrite app_nil_r. by split_and!.
    + rewrite (GetHttpsServer_https _ _ _ _ Hreg Ho Hty).
      eexists _, _. split; [done|]. split_and!; try done.
      by intros ? [= <-].
  - rewrite (GetHttpsServer_miss _ _ Hreg).
    eexists _, _. split; [done|]. by split_and!.
Qed.

Lemma AppendCertificate_frame address certificate m :
  wf m →
  ∃ b m',
    AppendCertificate env address certificate m = Some (b, m') ∧
    _http_servers m' = _http_servers m ∧
    length (objects m') = length (objects m) ∧
    bound (trace m') = bound (trace m).
Proof.
  intros Hwf. unfold AppendCertificate. unfold bind at 1.
  destruct (GetHttpsServer_frame address m Hwf)
    as (r & m1 & -> & Hreg & Hobjs & Hbound & Hs).
  destruct r as [s|].
  - destruct (Hs s eq_refl) as [o Ho]. rewrite <- Hobjs in Ho.
    unfold bind at 1.
    rewrite (HttpsServer_AppendCertificate_eq _ _ _ _ _ Ho). cbv zeta.
    destruct (append_certificate_result _ _ _ _); cbn;
      eexists _, _; (split; [reflexivity|]); cbn;
      rewrite ?bound_app; cbn; rewrite ?app_nil_r, ?length_insert;
      by rewrite Hobjs.
  - cbn. eexists _, _. split; [reflexivity|]. cbn.
    rewrite bound_app. cbn. rewrite app_nil_r. by rewrite Hobjs.
Qed.

Lemma RemoveCertificate_frame address certificate m :
  wf m →
  ∃ b m',
    RemoveCertificate env address certificate m = Some (b, m') ∧
    _http_servers m' = _http_servers m ∧
    length (objects m') = length (objects m) ∧
    bound (trace m') = bound (trace m).
Proof.
  intros Hwf. unfold RemoveCertificate. unfold bind at 1.
  destruct (GetHttpsServer_frame address m Hwf)
    as (r & m1 & -> & Hreg & Hobjs & Hbound & Hs).
  destruct r as [s|].
  - destruct (Hs s eq_refl) as [o Ho]. rewrite <- Hobjs in Ho.
    unfold bind at 1.
    rewrite (HttpsServer_RemoveCertificate_eq _ _ _ _ _ Ho). cbv zeta.
    destruct (remove_certificate_result _ _ _ _); cbn;
      eexists _, _; (split; [reflexivity|]); cbn;
      rewrite ?bound_app; cbn; rewrite ?app_nil_r, ?length_insert;
      by rewrite Hobjs.
  - cbn. eexists _, _. split; [reflexivity|]. cbn.
    rewrite bound_app. cbn. rewrite app_nil_r. by rewrite Hobjs.
Qed.

(** A request on a well-formed manager returns and keeps the two
    invariants. *)
Lemma perform_invariant q m :
  wf m →
  admissible q m →
  ∃ m',
    perform env q m = Some (tt, m') ∧
    wf m' ∧
    (single_bind m → single_bind m').
Proof.
  intros Hwf Hadm. destruct q; cbn [perform]; unfold bind at 1.
  - destruct (CreateHttpServer_good env name worker_count address m Hwf)
      as (r & m' & Hrun & Hwf' & _).
    rewrite Hrun. exists m'. split; [done|]. split; [done|].
    apply (single_bind_step address).
    by eapply CreateHttpServer_step.
  - destruct (CreateHttpsServer_good env name disable_http2_force
                worker_count address m Hwf)
      as (r & m' & Hrun & Hwf' & _).
    rewrite Hrun. exists m'. split; [done|]. split; [done|].
    apply (single_bind_step address).
    by eapply CreateHttpsServer_step.
  - destruct (CreateHttpsServer_certificate_good env name certificate
                disable_http2_force worker_count address m Hwf)
      as (r & m' & Hrun & Hwf' & _).
    rewrite Hrun. exists m'. split; [done|]. split; [done|].
    apply (single_bind_step address).
    by eapply CreateHttpsServer_certificate_step.
  - destruct (CreateServers_spec env "HTTP" port _ callback
                (CreateHttpServer_good env name worker_count)
                http_server_list server_ip_list m Hwf)
      as (b & l & m' & Hrun & _).
    unfold CreateHttpServers. rewrite Hrun. exists m'.
    split; [done|].
    destruct (batch_steps http_server_list name server_ip_list port ""
                false callback worker_count m b l m' Hwf)
      as (Hwf' & Hbind' & _); [by left|done].
  - destruct (CreateServers_spec env "HTTPS" port _ callback
                (CreateHttpsServer_certificate_good env name certificate
                   disable_http2_force worker_count)
                https_server_list server_ip_list m Hwf)
      as (b & l & m' & Hrun & _).
    unfold CreateHttpsServers. rewrite Hrun. exists m'.
    split; [done|].
    destruct (batch_steps https_server_list name server_ip_list port
                certificate disable_http2_force callback worker_count
                m b l m' Hwf)
      as (Hwf' & Hbind' & _); [by right|done].
  - destruct (AppendCertificate_frame address certificate m Hwf)
      as (b & m' & -> & Hreg & Hlen & Hbound).
    exists m'. split; [done|].
    split; [by apply (wf_frame m)|by apply single_bind_quiet].
  - destruct (RemoveCertificate_frame address certificate m Hwf)
      as (b & m' & -> & Hreg & Hlen & Hbound).
    exists m'. split; [done|].
    split; [by apply (wf_frame m)|by apply single_bind_quiet].
  - destruct http_server as [s|]; [|by exists m].
    destruct Hadm as [o Ho]. cbn [ReleaseServer].
    destruct (HttpServer_Stop env s m) as [[b m']|] eqn:Hstop.
    + apply HttpServer_Stop_frame in Hstop as (Hreg & Hlen & Hbound & _).
      exists m'. split; [done|].
      split; [by apply (wf_frame m)|by apply single_bind_quiet].
    + by rewrite (HttpServer_Stop_eq _ _ _ _ Ho) in Hstop.
  - destruct (GetHttpsServer_frame address m Hwf)
      as (r & m' & -> & Hreg & Hobjs & Hbound & _).
    exists m'. split; [done|].
    split; [apply (wf_frame m); by rewrite ?Hobjs
           |by apply single_bind_quiet].
Qed.

(** X16: in every state the manager reaches from its construction,
    whatever the clients ask and whatever the listeners answer, no
    address has been bound by two successful [Start]s, the addresses
    bound are exactly the registered ones, and every registered handle
    owns an object. *)
Theorem reachable_single_bind m :
  reachable env m → wf m ∧ single_bind m.
Proof.
  induction 1 as [|q m m' Hreach [Hwf Hbind] Hadm Hrun].
  - split; [apply wf_empty_manager|]. split; [constructor|].
    intros address. cbn. rewrite lookup_empty.
    split; [by intros ?%elem_of_nil|by intros [? ?]].
  - destruct (perform_invariant q m Hwf Hadm) as (m2 & Hrun2 & Hwf2 & Hb2).
    rewrite Hrun in Hrun2. injection Hrun2 as <-. auto.
Qed.

End System.

Section Listeners.

Variable env : Environment.

Implicit Types (m : HttpServerManager) (address : SocketAddress).
Implicit Types (s : Handle) (o : ServerObject) (tr : list Event).

Lemma keeps_listeners_refl m : keeps_listeners m m.
Proof. split; [done|]. intros s o Ho. by exists o. Qed.

Lemma keeps_listeners_trans m1 m2 m3 :
  keeps_listeners m1 m2 → keeps_listeners m2 m3 → keeps_listeners m1 m3.
Proof.
  intros [Hsub12 Hobj12] [Hsub23 Hobj23]. split; [by etrans|].
  intros s o Ho.
  destruct (Hobj12 s o Ho) as (o2 & Ho2 & Hty2 & Hname2 & Hflag2).
  destruct (Hobj23 s o2 Ho2) as (o3 & Ho3 & Hty3 & Hname3 & Hflag3).
  exists o3. split; [done|]. split_and!; congruence.
Qed.

Lemma keeps_listeners_trace m tr :
  keeps_listeners m (mkManager (_http_servers m) (objects m) tr).
Proof. split; [done|]. intros s o Ho. by exists o. Qed.

Lemma keeps_listeners_update m s o o' tr :
  objects m !! s = Some o →
  same_listener o o' →
  keeps_listeners m
    (mkManager (_http_servers m) (<[s := o']> (objects m)) tr).
Proof.
  intros Ho Hsame. split; [done|]. intros s1 o1 Ho1. cbn.
  destruct (decide (s = s1)) as [<-|Hne].
  - exists o'. rewrite list_lookup_insert_eq by by eapply lookup_lt_Some.
    pose proof (eq_trans (eq_sym Ho) Ho1) as [= ->]. done.
  - exists o1. rewrite list_lookup_insert_ne by done. by split.
Qed.

Lemma keeps_listeners_grow m reg' o tr :
  _http_servers m ⊆ reg' →
  keeps_listeners m (mkManager reg' (objects m ++ [o]) tr).
Proof.
  intros Hsub. split; [done|]. intros s1 o1 Ho1. exists o1.
  split; [|done]. cbn. by apply lookup_app_l_Some.
Qed.

Lemma HttpServer_Stop_keeps s m b m' :
  HttpServer_Stop env s m = Some (b, m') → keeps_listeners m m'.
Proof.
  destruct (objects m !! s) as [o|] eqn:Ho.
  - rewrite (HttpServer_Stop_eq _ _ _ _ Ho). cbv zeta.
    intros [= <- <-]. destruct (stop_result _ _ _).
    + by apply keeps_listeners_update with (o := o).
    + apply keeps_listeners_trace.
  - unfold HttpServer_Stop, bind, deref. by rewrite Ho.
Qed.

Lemma ReleaseServers_keeps server_list : ∀ m m',
  ReleaseServers env server_list m = Some (tt, m') → keeps_listeners m m'.
Proof.
  induction server_list as [|s rest IH]; intros m m' Hrun.
  - injection Hrun as <-. apply keeps_listeners_refl.
  - cbn [ReleaseServers ReleaseServer] in Hrun.
    apply bind_Some in Hrun as (b & m1 & Hstop & Hrun).
    eapply keeps_listeners_trans; [by eapply HttpServer_Stop_keeps|].
    by apply IH.
Qed.

Lemma CreateHttpServer_keeps name worker_count address m r m' :
  wf m →
  CreateHttpServer env name address worker_count m = Some (r, m') →
  keeps_listeners m m'.
Proof.
  intros Hwf.
  destruct (_http_servers m !! address) as [s|] eqn:Hreg.
  - destruct (wf_allocated m address s Hwf Hreg) as [o Ho].
    destruct (server_type o) eqn:Hty.
    + rewrite (CreateHttpServer_hit_http _ _ _ _ _ _ _ Hreg Ho Hty).
      intros [= <- <-]. apply keeps_listeners_trace.
    + rewrite (CreateHttpServer_hit_https _ _ _ _ _ _ _ Hreg Ho Hty).
      intros [= <- <-]. apply keeps_listeners_trace.
  - rewrite (CreateHttpServer_miss _ _ _ _ _ Hreg). cbv zeta.
    destruct (start_result _ _ _ _ _ _); intros [= <- <-];
      apply keeps_listeners_grow; [by apply insert_subseteq|done].
Qed.

Lemma CreateHttpsServer_keeps name force worker_count address m r m' :
  wf m →
  CreateHttpsServer env name address force worker_count m = Some (r, m') →
  keeps_listeners m m'.
Proof.
  intros Hwf.
  destruct (_http_servers m !! address) as [s|] eqn:Hreg.
  - destruct (wf_allocated m address s Hwf Hreg) as [o Ho].
    destruct (server_type o) eqn:Hty.
    + rewrite (CreateHttpsServer_hit_http _ _ _ _ _ _ _ _ Hreg Ho Hty).
      intros [= <- <-]. apply keeps_listeners_trace.
    + rewrite (CreateHttpsServer_hit_https _ _ _ _ _ _ _ _ Hreg Ho Hty).
      intros [= <- <-]. apply keeps_listeners_trace.
  - rewrite (CreateHttpsServer_miss _ _ _ _ _ _ Hreg). cbv zeta.
    destruct (start_result _ _ _ _ _ _); intros [= <- <-];
      apply keeps_listeners_grow; [by apply insert_subseteq|done].
Qed.

Lemma HttpsServer_AppendCertificate_keeps s certificate m b m' :
  HttpsServer_AppendCertificate env s certificate m = Some (b, m') →
  keeps_listeners m m'.
Proof.
  destruct (objects m !! s) as [o|] eqn:Ho.
  - rewrite (HttpsServer_AppendCertificate_eq _ _ _ _ _ Ho). cbv zeta.
    intros [= <- <-]. destruct (append_certificate_result _ _ _ _).
    + by apply keeps_listeners_update with (o := o).
    + apply keeps_listeners_trace.
  - unfold HttpsServer_AppendCertificate, bind, deref. by rewrite Ho.
Qed.

Lemma HttpsServer_RemoveCertificate_keeps s certificate m b m' :
  HttpsServer_RemoveCertificate env s certificate m = Some (b, m') →
  keeps_listeners m m'.
Proof.
  destruct (objects m !! s) as [o|] eqn:Ho.
  - rewrite (HttpsServer_RemoveCertificate_eq _ _ _ _ _ Ho). cbv zeta.
    intros [= <- <-]. destruct (remove_certificate_result _ _ _ _).
    + by apply keeps_listeners_update with (o := o).
    + apply keeps_listeners_trace.
  - unfold HttpsServer_RemoveCertificate, bind, deref. by rewrite Ho.
Qed.

Lemma emit_keeps e m u m' :
  emit e m = Some (u, m') → keeps_listeners m m'.
Proof. intros [= <- <-]. apply keeps_listeners_trace. Qed.

Lemma CreateHttpsServer_certificate_keeps
    name certificate force worker_count address m r m' :
  wf m →
  CreateHttpsServer_certificate env name address certificate force
    worker_count m = Some (r, m') →
  keeps_listeners m m'.
Proof.
  intros Hwf Hrun. unfold CreateHttpsServer_certificate in Hrun.
  apply bind_Some in Hrun as (https_server & m1 & Hcreate & Hrun).
  apply CreateHttpsServer_keeps in Hcreate; [|done].
  destruct https_server as [s|].
  - apply bind_Some in Hrun as (ok & m2 & Happend & Hrun).
    apply HttpsServer_AppendCertificate_keeps in Happend.
    eapply keeps_listeners_trans; [done|].
    eapply keeps_listeners_trans; [done|].
    destruct ok.
    + injection Hrun as <- <-. apply keeps_listeners_refl.
    + apply bind_Some in Hrun as ([] & m3 & Hlog & Hrun).
      injection Hrun as <- <-. by eapply emit_keeps.
  - by injection Hrun as <- <-.
Qed.

Lemma GetHttpsServer_keeps address m r m' :
  GetHttpsServer address m = Some (r, m') → keeps_listeners m m'.
Proof.
  unfold GetHttpsServer. intros Hrun.
  apply bind_Some in Hrun as (item & m1 & Hfind & Hrun).
  injection Hfind as <- <-.
  destruct (_http_servers m !! address) as [s|].
  - apply bind_Some in Hrun as (o & m1 & Hderef & Hrun).
    unfold deref in Hderef. destruct (objects m !! s) as [o0|]; [|done].
    injection Hderef as <- <-. destruct (server_type o0).
    + apply bind_Some in Hrun as ([] & m3 & Hlog & Hrun).
      injection Hrun as <- <-. by eapply emit_keeps.
    + injection Hrun as <- <-. apply keeps_listeners_refl.
  - injection Hrun as <- <-. apply keeps_listeners_refl.
Qed.

Section BatchKeeps.

Variable http_server_name : string.
Variable port : Z.
Variable f : SocketAddress → M (option Handle).
Variable callback : bool.
Hypothesis f_good : good_creation f.
Hypothesis f_keeps :
  ∀ address m r m', wf m → f address m = Some (r, m') →
                    keeps_listeners m m'.

Lemma create_on_addresses_keeps address_list : ∀ server_list m r m',
  wf m →
  create_on_addresses env http_server_name f callback
    address_list server_list m = Some (r, m') →
  wf m' ∧ keeps_listeners m m'.
Proof.
  induction address_list as [|address rest IH];
    intros server_list m r m' Hwf Hrun.
  - injection Hrun as <- <-. split; [done|apply keeps_listeners_refl].
  - cbn [create_on_addresses] in Hrun.
    apply bind_Some in Hrun as ([] & m0 & Hlog & Hrun).
    assert (Hwf0 : wf m0) by (injection Hlog as <-; by destruct m).
    apply emit_keeps in Hlog.
    apply bind_Some in Hrun as (server & m1 & Hf & Hrun).
    assert (Hwf1 : wf m1).
    { destruct (f_good address m0 Hwf0) as (r2 & m2 & Hf2 & Hwf2 & _).
      rewrite Hf in Hf2. by injection Hf2 as <- <-. }
    apply f_keeps in Hf; [|done].
    destruct server as [s|].
    + apply bind_Some in Hrun as ([] & m3 & Hcb & Hrun).
      assert (Hm3 : wf m3 ∧ keeps_listeners m1 m3).
      { destruct callback.
        - split; [|by eapply emit_keeps].
          injection Hcb as <-. by destruct m1.
        - injection Hcb as <-. split; [done|apply keeps_listeners_refl]. }
      destruct Hm3 as [Hwf3 Hkeep3].
      apply IH in Hrun as [Hwf' Hkeep']; [|done]. split; [done|].
      eapply keeps_listeners_trans; [exact Hlog|].
      eapply keeps_listeners_trans; [exact Hf|].
      by eapply keeps_listeners_trans.
    + apply bind_Some in Hrun as ([] & m4 & Hlog4 & Hrun).
      assert (Hwf4 : wf m4) by (injection Hlog4 as <-; by destruct m1).
      apply emit_keeps in Hlog4.
      apply bind_Some in Hrun as ([] & m5 & Hrel & Hrun).
      injection Hrun as <- <-.
      pose proof (ReleaseServers_frame env _ _ _ Hrel) as (Hreg & Hlen & _).
      apply ReleaseServers_keeps in Hrel. split.
      * by apply (wf_frame m4).
      * eapply keeps_listeners_trans; [exact Hlog|].
        eapply keeps_listeners_trans; [exact Hf|].
        by eapply keeps_listeners_trans.
Qed.

Lemma create_on_ips_keeps server_ip_list : ∀ server_list m r m',
  wf m →
  create_on_ips env http_server_name port f callback
    server_ip_list server_list m = Some (r, m') →
  wf m' ∧ keeps_listeners m m'.
Proof.
  induction server_ip_list as [|server_ip rest IH];
    intros server_list m r m' Hwf Hrun.
  - injection Hrun as <- <-. split; [done|apply keeps_listeners_refl].
  - cbn [create_on_ips] in Hrun.
    destruct (SocketAddress_Create env server_ip port) as [address_list|].
    + apply bind_Some in Hrun as (r1 & m1 & Hinner & Hrun).
      apply create_on_addresses_keeps in Hinner as [Hwf1 Hkeep1]; [|done].
      destruct r1 as [server_list1|].
      * apply IH in Hrun as [Hwf' Hkeep']; [|done]. split; [done|].
        by eapply keeps_listeners_trans.
      * by injection Hrun as <- <-.
    + apply bind_Some in Hrun as ([] & m1 & Hlog & Hrun).
      injection Hrun as <- <-. split.
      * injection Hlog as <-. by destruct m.
      * by eapply emit_keeps.
Qed.

Lemma CreateServers_keeps http_server_list server_ip_list m x m' :
  wf m →
  CreateServers env http_server_name port f callback
    http_server_list server_ip_list m = Some (x, m') →
  keeps_listeners m m'.
Proof.
  intros Hwf Hrun. unfold CreateServers in Hrun.
  apply bind_Some in Hrun as (r & m1 & Hloop & Hrun).
  apply create_on_ips_keeps in Hloop as [_ Hkeep]; [|done].
  destruct r; by injection Hrun as <- <-.
Qed.

End BatchKeeps.

(** X17: no request ever removes or replaces an entry of
    [_http_servers], and none changes the kind, the instance name or
    the HTTP/2 flag of a server object that exists: an address that
    holds a listener holds that same listener, of that same kind,
    after any call. *)
Theorem perform_keeps_listeners q m m' :
  wf m →
  perform env q m = Some (tt, m') →
  keeps_listeners m m'.
Proof.
  intros Hwf Hrun. destruct q; cbn [perform] in Hrun;
    apply bind_Some in Hrun as (x & m1 & Hrun & Hret);
    injection Hret as <-.
  - by eapply CreateHttpServer_keeps.
  - by eapply CreateHttpsServer_keeps.
  - by eapply CreateHttpsServer_certificate_keeps.
  - eapply (CreateServers_keeps "HTTP" port _ callback
              (CreateHttpServer_good env name worker_count));
      [|exact Hwf|exact Hrun].
    intros address m0 r m0'. apply CreateHttpServer_keeps.
  - eapply (CreateServers_keeps "HTTPS" port _ callback
              (CreateHttpsServer_certificate_good env name certificate
                 disable_http2_force worker_count));
      [|exact Hwf|exact Hrun].
    intros address m0 r m0'. apply CreateHttpsServer_certificate_keeps.
  - unfold AppendCertificate in Hrun.
    apply bind_Some in Hrun as (hs & m2 & Hget & Hrun).
    apply GetHttpsServer_keeps in Hget.
    eapply keeps_listeners_trans; [exact Hget|].
    destruct hs as [s|].
    + apply bind_Some in Hrun as (ok & m3 & Happend & Hrun).
      apply HttpsServer_AppendCertificate_keeps in Happend.
      eapply keeps_listeners_trans; [exact Happend|].
      destruct ok.
      * injection Hrun as <- <-. apply keeps_listeners_refl.
      * apply bind_Some in Hrun as ([] & m4 & Hlog & Hrun).
        injection Hrun as <- <-. by eapply emit_keeps.
    + apply bind_Some in Hrun as ([] & m4 & Hlog & Hrun).
      injection Hrun as <- <-. by eapply emit_keeps.
  - unfold RemoveCertificate in Hrun.
    apply bind_Some in Hrun as (hs & m2 & Hget & Hrun).
    apply GetHttpsServer_keeps in Hget.
    eapply keeps_listeners_trans; [exact Hget|].
    destruct hs as [s|].
    + apply bind_Some in Hrun as (ok & m3 & Hremove & Hrun).
      apply HttpsServer_RemoveCertificate_keeps in Hremove.
      eapply keeps_listeners_trans; [exact Hremove|].
      destruct ok.
      * injection Hrun as <- <-. apply keeps_listeners_refl.
      * apply bind_Some in Hrun as ([] & m4 & Hlog & Hrun).
        injection Hrun as <- <-. by eapply emit_keeps.
    + apply bind_Some in Hrun as ([] & m4 & Hlog & Hrun).
      injection Hrun as <- <-. by eapply emit_keeps.
  - destruct http_server as [s|].
    + by eapply HttpServer_Stop_keeps.
    + injection Hrun as <- <-. apply keeps_listeners_refl.
  - by eapply GetHttpsServer_keeps.
Qed.

End Listeners.

(** ** Instances of the further statements *)

Lemma GetHttpsServer_lookup_witness :
  ∃ r m',
    GetHttpsServer addr1 https_manager = Some (r, m') ∧
    _http_servers m' = _http_servers https_manager ∧
    objects m' = objects https_manager ∧
    (∀ s, r = Some s ↔
          ∃ o, registered https_manager addr1 s ∧
               objects https_manager !! s = Some o ∧
               server_type o = Https) ∧
    (trace m' = trace https_manager ∨
     ∃ s o, registered https_manager addr1 s ∧
            objects https_manager !! s = Some o ∧
            server_type o = Http ∧
            trace m' =
              trace https_manager ++
              [EvLog LogError (GetHttpsServerPreviousIsHttp addr1)]).
Proof.
  apply (GetHttpsServer_lookup addr1 https_manager).
  apply (bool_decide_unpack _). vm_compute. reflexivity.
Defined.

Lemma certificate_operations_need_https_listener_witness :
  (∃ m',
     AppendCertificate env_ok addr1 "cert" http_manager = Some (false, m') ∧
     _http_servers m' = _http_servers http_manager ∧
     objects m' = objects http_manager ∧
     certificate_calls (trace m') = certificate_calls (trace http_manager)) ∧
  (∃ m',
     RemoveCertificate env_ok addr1 "cert" http_manager = Some (false, m') ∧
     _http_servers m' = _http_servers http_manager ∧
     objects m' = objects http_manager ∧
     certificate_calls (trace m') = certificate_calls (trace http_manager)).
Proof.
  apply (certificate_operations_need_https_listener env_ok addr1 "cert"
           http_manager).
  - apply (bool_decide_unpack _). vm_compute. reflexivity.
  - intros s o Hreg Ho. vm_compute in Hreg. injection Hreg as <-.
    vm_compute in Ho. by injection Ho as <-.
Defined.

Lemma AppendCertificate_forwards_witness :
  ∃ ok m',
    ok = append_certificate_result env_bad_certificate
           (trace https_manager) 0%nat "cert" ∧
    AppendCertificate env_bad_certificate addr1 "cert" https_manager
      = Some (ok, m') ∧
    _http_servers m' = _http_servers https_manager ∧
    trace m' =
      trace https_manager ++
      EvAppendCertificate 0%nat "cert" ok ::
      (if ok then []
       else [EvLog LogError (CouldNotSetCertificateTo addr1)]) ∧
    (ok = false → objects m' = objects https_manager) ∧
    (ok = true →
     objects m' =
       <[0%nat := with_certificates
                    (mkServerObject Https "tls" (Some 5) true [])
                    ([] ++ ["cert"])]>
         (objects https_manager)).
Proof.
  apply (AppendCertificate_forwards env_bad_certificate addr1 "cert"
           https_manager 0%nat
           (mkServerObject Https "tls" (Some 5) true []));
    vm_compute; reflexivity.
Defined.

Lemma RemoveCertificate_forwards_witness :
  ∃ ok m',
    ok = remove_certificate_result env_ok (trace https_manager) 0%nat
           "cert" ∧
    RemoveCertificate env_ok addr1 "cert" https_manager = Some (ok, m') ∧
    _http_servers m' = _http_servers https_manager ∧
    trace m' =
      trace https_manager ++
      EvRemoveCertificate 0%nat "cert" ok ::
      (if ok then []
       else [EvLog LogError (CouldNotSetCertificateTo addr1)]) ∧
    (ok = false → objects m' = objects https_manager) ∧
    (ok = true →
     objects m' =
       <[0%nat := with_certificates
                    (mkServerObject Https "tls" (Some 5) true [])
                    (filter (λ c, c ≠ "cert") [])]>
         (objects https_manager)).
Proof.
  apply (RemoveCertificate_forwards env_ok addr1 "cert" https_manager
           0%nat (mkServerObject Https "tls" (Some 5) true []));
    vm_compute; reflexivity.
Defined.

Lemma CreateHttpsServer_on_http_address_witness :
  ∃ m',
    CreateHttpsServer env_ok "tls" addr1 false 5 http_manager
      = Some (None, m') ∧
    _http_servers m' = _http_servers http_manager ∧
    objects m' = objects http_manager ∧
    trace m' =
      trace http_manager ++ [EvLog LogError (CannotReusePreviousIsHttp addr1)].
Proof.
  apply (CreateHttpsServer_on_http_address env_ok "tls" addr1 false 5
           http_manager 0%nat
           (mkServerObject Http "plain" (Some 5) true []));
    vm_compute; reflexivity.
Defined.

Lemma CreateHttpsServer_reuse_flag_warning_witness :
  ∃ m',
    CreateHttpsServer env_ok "second" addr1 true 9 https_manager
      = Some (Some 0%nat, m') ∧
    _http_servers m' = _http_servers https_manager ∧
    objects m' = objects https_manager ∧
    (true = (http2_config env_ok && negb true) →
     trace m' = trace https_manager) ∧
    (true = true → http2_config env_ok && negb true = false →
     trace m' =
       trace https_manager ++
       [EvLog LogWarning (Http2PortUsedAsHttp11 addr1)]) ∧
    (true = false → http2_config env_ok && negb true = true →
     trace m' =
       trace https_manager ++
       [EvLog LogWarning (Http11PortUsedAsHttp2 addr1)]).
Proof.
  apply (CreateHttpsServer_reuse_flag_warning env_ok "second" addr1 true 9
           https_manager 0%nat
           (mkServerObject Https "tls" (Some 5) true []));
    vm_compute; reflexivity.
Defined.

Lemma CreateHttpServer_reuse_warnings_witness :
  ∃ m',
    CreateHttpServer env_ok "second" addr1 9 http_manager
      = Some (Some 0%nat, m') ∧
    _http_servers m' = _http_servers http_manager ∧
    objects m' = objects http_manager ∧
    starts (trace m') = starts (trace http_manager) ∧
    (9 = HTTP_SERVER_USE_DEFAULT_COUNT env_ok ∨
     Some 5 = None ∨
     Some 5 = Some 9 →
     trace m' = trace http_manager) ∧
    (∀ w, 9 ≠ HTTP_SERVER_USE_DEFAULT_COUNT env_ok →
          Some 5 = Some w →
          w ≠ 9 →
          trace m' =
            trace http_manager ++
            [EvLog LogWarning (WorkerCountDiffers w 9);
             EvLog LogWarning (FirstInitializedCountUsed w)]).
Proof.
  apply (CreateHttpServer_reuse_warnings env_ok "second" addr1 9
           http_manager 0%nat
           (mkServerObject Http "plain" (Some 5) true []));
    vm_compute; reflexivity.
Defined.

Lemma creation_frame_witness :
  (∃ r m',
     CreateHttpServer env_one_port "svc" addr2 5 https_manager
       = Some (r, m') ∧
     registers_at_most addr2 https_manager m' ∧
     objects https_manager `prefix_of` objects m') ∧
  (∃ r m',
     CreateHttpsServer env_one_port "svc" addr2 false 5 https_manager
       = Some (r, m') ∧
     registers_at_most addr2 https_manager m' ∧
     objects https_manager `prefix_of` objects m').
Proof.
  apply (creation_frame env_one_port "svc" addr2 false 5 https_manager).
  apply (bool_decide_unpack _). vm_compute. reflexivity.
Defined.

Lemma CreateHttpsServer_certificate_creates_witness :
  ∃ m',
    CreateHttpsServer_certificate env_ok "svc" addr1 "cert" false 5
      empty_manager = Some (Some 0%nat, m') ∧
    _http_servers m' = <[addr1 := 0%nat]> ∅ ∧
    objects m' = [mkServerObject Https "svc" (Some 5) true ["cert"]] ∧
    trace m' =
      [EvStart 0%nat addr1 5 true true;
       EvAppendCertificate 0%nat "cert" true].
Proof.
  apply (CreateHttpsServer_certificate_creates env_ok "svc" addr1 "cert"
           false 5 empty_manager);
    vm_compute; reflexivity.
Defined.

Lemma CreateHttpsServer_certificate_reuse_witness :
  ∃ ok m',
    CreateHttpsServer_certificate env_bad_certificate "second" addr1 "cert"
      false 9 https_manager
      = Some (if ok : bool then Some 0%nat else None, m') ∧
    _http_servers m' = _http_servers https_manager ∧
    starts (trace m') = starts (trace https_manager) ∧
    certificate_calls (trace m')
    = certificate_calls (trace https_manager) ++ [0%nat] ∧
    (ok = false → objects m' = objects https_manager) ∧
    (ok = true →
     objects m' =
       <[0%nat := with_certificates
                    (mkServerObject Https "tls" (Some 5) true [])
                    ([] ++ ["cert"])]>
         (objects https_manager)).
Proof.
  apply (CreateHttpsServer_certificate_reuse env_bad_certificate "second"
           addr1 "cert" false 9 https_manager 0%nat
           (mkServerObject Https "tls" (Some 5) true []));
    vm_compute; reflexivity.
Defined.

Lemma release_then_create_witness :
  ∃ b m1,
    ReleaseServer env_ok (Some 0%nat) http_manager = Some (b, m1) ∧
    (Http = Http →
     ∃ m2,
       CreateHttpServer env_ok "again" addr1 5 m1 = Some (Some 0%nat, m2) ∧
       starts (trace m2) = starts (trace http_manager) ∧
       stops (trace m2) = stops (trace http_manager) ++ [0%nat]) ∧
    (Http = Https →
     ∃ m2,
       CreateHttpsServer env_ok "again" addr1 false 5 m1
         = Some (Some 0%nat, m2) ∧
       starts (trace m2) = starts (trace http_manager) ∧
       stops (trace m2) = stops (trace http_manager) ++ [0%nat]).
Proof.
  apply (release_then_create env_ok "again" addr1 false 5 http_manager
           0%nat (mkServerObject Http "plain" (Some 5) true []));
    vm_compute; reflexivity.
Defined.

Lemma batch_keeps_entries_witness :
  (∃ b http_server_list' m',
     CreateHttpServers env_one_port [] "svc" ["10.0.0.2"] 8080 false 5
       https_manager = Some ((b, http_server_list'), m') ∧
     _http_servers https_manager ⊆ _http_servers m') ∧
  (∃ b http_server_list' m',
     CreateHttpsServers env_one_port [] "svc" ["10.0.0.2"] 8080 "cert"
       false false 5 https_manager = Some ((b, http_server_list'), m') ∧
     _http_servers https_manager ⊆ _http_servers m').
Proof.
  apply (batch_keeps_entries env_one_port [] "svc" ["10.0.0.2"] 8080
           "cert" false false 5 https_manager).
  apply (bool_decide_unpack _). vm_compute. reflexivity.
Defined.


Lemma batch_callbacks_witness :
  ∃ address_list created,
    resolve_all env_ok ["10.0.0.2"; "10.0.0.2"] 8080 = Some address_list ∧
    [7%nat; 1%nat; 1%nat] = [7%nat] ++ created ∧
    length created = length address_list ∧
    callbacks (trace shared_manager) =
      callbacks (trace https_manager) ++ zip address_list created.
Proof.
  apply (batch_callbacks env_ok [7%nat] "svc" ["10.0.0.2"; "10.0.0.2"]
           8080 "cert" false true 5 https_manager [7%nat; 1%nat; 1%nat]
           shared_manager).
  - apply (bool_decide_unpack _). vm_compute. reflexivity.
  - left. vm_compute. reflexivity.
Defined.

Lemma batch_shares_listener_witness :
  ∃ address_list created,
    resolve_all env_ok ["10.0.0.2"; "10.0.0.2"] 8080 = Some address_list ∧
    [7%nat; 1%nat; 1%nat] = [7%nat] ++ created ∧
    ∀ i j address,
      address_list !! i = Some address →
      address_list !! j = Some address →
      is_Some (created !! i) ∧ created !! i = created !! j.
Proof.
  apply (batch_shares_listener env_ok [7%nat] "svc"
           ["10.0.0.2"; "10.0.0.2"] 8080 "cert" false true 5
           https_manager [7%nat; 1%nat; 1%nat] shared_manager).
  - apply (bool_decide_unpack _). vm_compute. reflexivity.
  - left. vm_compute. reflexivity.
Defined.

Lemma reachable_single_bind_witness :
  wf shared_manager ∧ single_bind shared_manager.
Proof.
  apply (reachable_single_bind env_ok shared_manager).
  apply (reachable_step env_ok
           (ReqCreateHttpServers [7%nat] "svc" ["10.0.0.2"; "10.0.0.2"]
              8080 true 5)
           https_manager shared_manager).
  - apply (reachable_step env_ok (ReqCreateHttpsServer "tls" addr1 false 5)
             empty_manager https_manager).
    + apply reachable_init.
    + exact I.
    + vm_compute. reflexivity.
  - exact I.
  - vm_compute. reflexivity.
Defined.

Lemma perform_keeps_listeners_witness :
  keeps_listeners https_manager shared_manager.
Proof.
  apply (perform_keeps_listeners env_ok
           (ReqCreateHttpServers [7%nat] "svc" ["10.0.0.2"; "10.0.0.2"]
              8080 true 5)
           https_manager shared_manager).
  - apply (bool_decide_unpack _). vm_compute. reflexivity.
  - vm_compute. reflexivity.
Defined.
